(** * Notes with image uploads: the note editor action, the edit loader and
      the [note_images] migration

    A shallow embedding of
    - [app/routes/resources+/note-editor.tsx] (the [action] that validates a
      submission and persists a note with its uploaded images),
    - [app/routes/users+/$username_+/notes.$noteId_.edit.tsx] (the [loader]),
    - [prisma/migrations/20230711042606_note_images/migration.sql].

    The database is a record of finite maps, one per table, keyed by the
    table's unique column.  Every Prisma call is a step of a state-and-error
    monad whose state survives a thrown error: the source wraps nothing in a
    transaction, so every statement commits on its own. *)

From Stdlib Require Import ZArith.
From stdpp Require Import gmap strings list fin_maps stringmap.

Open Scope string_scope.

(** ** Rows *)

Definition Blob := list Byte.byte.

(** The owner of a note, of which the action selects the [username]. *)
Module User.
Record t := mk { username : string }.
End User.

(** Modelled from the spec: the Prisma model [Note] is not part of the
    sources; the spec's data model gives it [id], [ownerId], [title] and
    [content].  The [id] is the key of the table. *)
Module Note.
Record t := mk { ownerId : string; title : string; content : string }.
End Note.

(** Modelled from the spec: the Prisma model [File] is [File(id, blob)]. *)
Module File.
Record t := mk { blob : Blob }.
End File.

(** The columns of ["Image"] as [migration.sql] declares them, without the
    unique [fileId], which is the key of the table. *)
Module Image.
Record t := mk {
  contentType : string;
  altText : option string;
  createdAt : Z;
  updatedAt : Z;
  noteId : option string
}.
End Image.

Global Instance byte_eq_dec : EqDecision Byte.byte := Byte.byte_eq_dec.
Global Instance Blob_eq_dec : EqDecision Blob.
Proof. unfold Blob. apply _. Defined.
Global Instance User_eq_dec : EqDecision User.t.
Proof. solve_decision. Defined.
Global Instance Note_eq_dec : EqDecision Note.t.
Proof. solve_decision. Defined.
Global Instance File_eq_dec : EqDecision File.t.
Proof. solve_decision. Defined.
Global Instance Image_eq_dec : EqDecision Image.t.
Proof. solve_decision. Defined.

(** ** The database *)

(** One write statement that the database committed. *)
Inductive Statement :=
| NoteCreate (id : string)
| NoteUpdate (id : string)
| FileCreate (id : string)
| ImageCreate (fileId : string).

Record Db := mkDb {
  users : gmap string User.t;
  notes : gmap string Note.t;
  files : gmap string File.t;
  images : gmap string Image.t;
  journal : list Statement
}.

(** What a Prisma call or [fs.promises.readFile] throws. *)
Inductive Exn :=
| ENOENT (path : string)
| ForeignKeyViolation (constraint : string)
| UniqueViolation (index : string)
| RecordNotFound.

(** ** Statements as steps: state and error, no rollback *)

Definition M (A : Type) : Type := Db → Db * (Exn + A).

Definition ret {A} (a : A) : M A := λ db, (db, inr a).
Definition throw {A} (e : Exn) : M A := λ db, (db, inl e).
Definition bind {A B} (m : M A) (k : A → M B) : M B :=
  λ db, match m db with
        | (db', inr a) => k a db'
        | (db', inl e) => (db', inl e)
        end.

Global Instance M_ret : MRet M := @ret.
Global Instance M_bind : MBind M := λ A B k m, bind m k.

(** ** Prisma *)

(** Ids are [cuid()]s.  Of the generator the model keeps what the tables
    rely on: an id is never empty and is new to the table that it keys. *)
Definition cuid {A} (tbl : gmap string A) : string :=
  fresh_string_of_set "c" ({[ "" ]} ∪ dom tbl).

Section prisma.
(** [DEFAULT CURRENT_TIMESTAMP] and Prisma's [@updatedAt]. *)
Variable now : Z.

(** [prisma.note.findFirst({ where: { id, ownerId }, select })]: [select]
    reads the row and, for a relation, the other tables. *)
Definition note_findFirst {A} (id ownerId : string)
    (select : string → Note.t → Db → A) : M (option A) := λ db,
  (db, inr (n ← notes db !! id;
            if decide (Note.ownerId n = ownerId) then Some (select id n db) else None)).

(** The [select] of the action: [{ id, owner: { username } }]. *)
Definition select_owner (id : string) (n : Note.t) : M (string * string) := λ db,
  match users db !! Note.ownerId n with
  | Some u => (db, inr (id, User.username u))
  | None => (db, inl (ForeignKeyViolation "Note_ownerId_fkey"))
  end.

(** [prisma.note.update({ where: { id }, data, select })] *)
Definition note_update (id : string) (data : Note.t) : M (string * string) := λ db,
  match notes db !! id with
  | None => (db, inl RecordNotFound)
  | Some _ =>
      match users db !! Note.ownerId data with
      | None => (db, inl (ForeignKeyViolation "Note_ownerId_fkey"))
      | Some _ =>
          select_owner id data
            (mkDb (users db) (<[id := data]> (notes db)) (files db) (images db)
                  (journal db ++ [NoteUpdate id]))
      end
  end.

(** [prisma.note.create({ data, select })] *)
Definition note_create (data : Note.t) : M (string * string) := λ db,
  match users db !! Note.ownerId data with
  | None => (db, inl (ForeignKeyViolation "Note_ownerId_fkey"))
  | Some _ =>
      let id := cuid (notes db) in
      select_owner id data
        (mkDb (users db) (<[id := data]> (notes db)) (files db) (images db)
              (journal db ++ [NoteCreate id]))
  end.

(** [prisma.file.create({ data: { blob }, select: { id: true } })] *)
Definition file_create (blob : Blob) : M string := λ db,
  let id := cuid (files db) in
  (mkDb (users db) (notes db) (<[id := File.mk blob]> (files db)) (images db)
        (journal db ++ [FileCreate id]),
   inr id).

(** [prisma.image.create({ data: { contentType, noteId, altText, fileId } })]
    under the constraints of [migration.sql]: the unique index on [fileId]
    and the two foreign keys. *)
Definition image_create (contentType : string) (noteId : string)
    (altText : option string) (fileId : string) : M () := λ db,
  match images db !! fileId with
  | Some _ => (db, inl (UniqueViolation "Image_fileId_key"))
  | None =>
      match files db !! fileId with
      | None => (db, inl (ForeignKeyViolation "Image_fileId_fkey"))
      | Some _ =>
          match notes db !! noteId with
          | None => (db, inl (ForeignKeyViolation "Image_noteId_fkey"))
          | Some _ =>
              (mkDb (users db) (notes db) (files db)
                    (<[fileId := Image.mk contentType altText now now (Some noteId)]>
                       (images db))
                    (journal db ++ [ImageCreate fileId]),
               inr ())
          end
      end
  end.
End prisma.

(** ** The submission *)

Module Upload.
Record t := mk { filepath : string; type : string; name : string }.
End Upload.

(** [ServerImageFieldsetSchema] *)
Module ImageFieldset.
Record t := mk { image : Upload.t; altText : option string }.
End ImageFieldset.

(** The payload of a form, with the types of [ServerNoteEditorSchema]:
    [BaseNoteEditorSchema] extended with [images].  An absent [id] is
    [None]; the hidden field of the form sends an empty one.  Every entry of
    [images] is an upload with its three strings.  A form has one group of
    fields [images[i]] per image and nothing for an empty list: a payload
    with [images = []] is a form without [images]. *)
Module Payload.
Record t := mk {
  id : option string;
  title : string;
  content : string;
  images : list ImageFieldset.t
}.
End Payload.

(** A zod issue: a string that misses [min] or [max], or a key of the
    schema that the payload does not have (["Required"]). *)
Inductive Issue :=
| too_small (minimum : Z)
| too_big (maximum : Z)
| required.

(** [s.length] *)
Definition js_length (s : string) : Z := Z.of_nat (String.length s).

(** [z.string().min(lo).max(hi)] *)
Definition string_min_max (lo hi : Z) (s : string) : list Issue :=
  (if decide (js_length s < lo)%Z then [too_small lo] else []) ++
  (if decide (hi < js_length s)%Z then [too_big hi] else []).

(** The issues of [BaseNoteEditorSchema], by field. *)
Definition BaseNoteEditorSchema (p : Payload.t) : list (string * list Issue) :=
  [ ("title", string_min_max 1 100 (Payload.title p));
    ("content", string_min_max 1 10000 (Payload.content p)) ].

(** [z.array(ServerImageFieldsetSchema)], which is not optional: a payload
    without [images] misses a required key. *)
Definition images_array (images : list ImageFieldset.t) : list Issue :=
  match images with
  | [] => [required]
  | _ :: _ => []
  end.

(** The issues of [ServerNoteEditorSchema], by field:
    [BaseNoteEditorSchema.extend({ images: z.array(...) })]. *)
Definition ServerNoteEditorSchema (p : Payload.t) : list (string * list Issue) :=
  BaseNoteEditorSchema p ++ [ ("images", images_array (Payload.images p)) ].

Record FormData := mkFormData {
  fd_intent : string;
  fd_payload : Payload.t
}.

Record Submission := mkSubmission {
  intent : string;
  payload : Payload.t;
  value : option Payload.t;
  error : gmap string (list Issue)
}.

(** [parse(formData, { schema, acceptMultipleErrors: () => true })]: every
    field with issues is a key of [error], with all its issues; [value] is
    there when no field has one. *)
Definition parse (formData : FormData) : Submission :=
  let issues :=
    filter (λ fi, fi.2 ≠ []) (ServerNoteEditorSchema (fd_payload formData)) in
  mkSubmission (fd_intent formData) (fd_payload formData)
    (if decide (issues = []) then Some (fd_payload formData) else None)
    (list_to_map issues).

(** ** The action *)

Inductive Status := idle | error_status.

Inductive Response :=
| json (status : Status) (submission : Submission) (code : nat)
| redirectWithToast (url : string) (toast_title : string).

Record Env := mkEnv {
  (** the upload directory, read by [fs.promises.readFile] *)
  fs : gmap string Blob;
  (** the clock *)
  now : Z
}.

Definition readFile (env : Env) (filepath : string) : M Blob :=
  match fs env !! filepath with
  | Some b => mret b
  | None => throw (ENOENT filepath)
  end.

(** The condition [if (id)] and [id ? ... : ...]: an absent and an empty id
    are both falsy. *)
Definition truthy (id : option string) : bool :=
  match id with
  | Some (String _ _) => true
  | _ => false
  end.

(** The body of [for (const { image, altText } of images ?? [])]. *)
Definition save_image (env : Env) (noteId : string) (entry : ImageFieldset.t) : M () :=
  blob ← readFile env (Upload.filepath (ImageFieldset.image entry));
  fileId ← file_create blob;
  image_create (now env) (Upload.type (ImageFieldset.image entry)) noteId
    (ImageFieldset.altText entry) fileId.

Fixpoint save_images (env : Env) (noteId : string) (entries : list ImageFieldset.t) : M () :=
  match entries with
  | [] => mret ()
  | entry :: rest => save_image env noteId entry;; save_images env noteId rest
  end.

Definition action (env : Env) (userId : string) (formData : FormData) : M Response :=
  let submission := parse formData in
  if decide (intent submission ≠ "submit") then
    mret (json idle submission 200)
  else
    match value submission with
    | None => mret (json error_status submission 400)
    | Some v =>
        let data := Note.mk userId (Payload.title v) (Payload.content v) in
        let finish (note : string * string) : M Response :=
          save_images env note.1 (Payload.images v);;
          mret (redirectWithToast
                  ("/users/" +:+ note.2 +:+ "/notes/" +:+ note.1)
                  (if truthy (Payload.id v) then "Note updated" else "Note created")) in
        match Payload.id v with
        | Some (String a s) =>
            let id := String a s in
            existingNote ← note_findFirst id userId (λ id _ _, id);
            match existingNote with
            | None => mret (json error_status submission 404)
            | Some _ => note ← note_update id data; finish note
            end
        | _ => note ← note_create data; finish note
        end
    end.

(** ** The loader of the edit page *)

(** The [select] of the loader: [{ id, title, content, images: { fileId,
    altText } }]. *)
Module LoaderNote.
Record t := mk {
  id : string;
  title : string;
  content : string;
  images : list (string * option string)
}.
End LoaderNote.

Inductive LoaderResponse :=
| thrown_Response (body : string) (status : nat)
| json_note (note : LoaderNote.t).

(** The relation [Note.images]: the rows of ["Image"] whose [noteId] is the
    note's id, as [fileId] and [altText]. *)
Definition note_images (id : string) (db : Db) : list (string * option string) :=
  (λ fi : string * Image.t, (fi.1, Image.altText fi.2)) <$>
    map_to_list (filter (λ fi : string * Image.t, Image.noteId fi.2 = Some id) (images db)).

Definition loader (noteId userId : string) : M LoaderResponse :=
  note ← note_findFirst noteId userId
            (λ id n db, LoaderNote.mk id (Note.title n) (Note.content n) (note_images id db));
  match note with
  | None => mret (thrown_Response "Not found" 404)
  | Some note => mret (json_note note)
  end.

(** ** The migration [20230711042606_note_images] *)

Module Migration.
(** Modelled from the spec: the table ["Image"] that the migration finds
    is declared by an earlier migration, which is not part of the sources.
    A row of it has the five columns that the [SELECT] reads, typed as
    ["new_Image"] declares them. *)
Record OldImage := mkOld {
  fileId : string;
  contentType : string;
  altText : option string;
  createdAt : Z;
  updatedAt : Z
}.

(** A row of ["new_Image"], which has no index yet: [fileId] and the other
    columns. *)
Definition Row : Type := string * Image.t.

(** [CREATE TABLE "new_Image" (...)] *)
Definition create_table : list Row := [].

(** [INSERT INTO "new_Image" ("altText", "contentType", "createdAt",
    "fileId", "updatedAt") SELECT ... FROM "Image"]: ["noteId"] is not in
    the column list and has no default, so it is [NULL]. *)
Definition insert_select (new_Image : list Row) (image : list OldImage) : list Row :=
  new_Image ++
  ((λ r, (fileId r,
          Image.mk (contentType r) (altText r) (createdAt r) (updatedAt r) None))
     <$> image).

(** [CREATE UNIQUE INDEX "Image_fileId_key" ON "Image"("fileId")] fails on
    a table that has one [fileId] twice. *)
Definition create_unique_index (rows : list Row) : option (gmap string Image.t) :=
  if decide (NoDup rows.*1) then Some (list_to_map rows) else None.

(** The script: after [DROP TABLE "Image"] and [ALTER TABLE "new_Image"
    RENAME TO "Image"] the new table is the one that is indexed. *)
Definition migration (image : list OldImage) : option (gmap string Image.t) :=
  create_unique_index (insert_select create_table image).
End Migration.

(** ** Well-formed databases and valid payloads *)

(** What the schema guarantees of every database that the application
    wrote: ids are [cuid()]s, so no note has the empty id, and the foreign
    keys [Note.ownerId], [Image.fileId] and [Image.noteId] point at rows. *)
Definition db_ok (db : Db) : Prop :=
  notes db !! "" = None ∧
  map_Forall (λ _ n, is_Some (users db !! Note.ownerId n)) (notes db) ∧
  map_Forall (λ f _, is_Some (files db !! f)) (images db) ∧
  map_Forall (λ _ i, from_option (λ n, is_Some (notes db !! n)) True (Image.noteId i))
    (images db).

Global Instance from_option_dec {A} (P : A → Prop) (Q : Prop) (o : option A)
  `{∀ x, Decision (P x), Decision Q} : Decision (from_option P Q o).
Proof. destruct o; simpl; apply _. Defined.

Global Instance db_ok_dec db : Decision (db_ok db).
Proof. unfold db_ok. apply _. Defined.

(** What the schema accepts: a title of 1 to 100 characters, a content of 1
    to 10,000, and at least one image. *)
Definition title_ok (p : Payload.t) : Prop :=
  (1 ≤ js_length (Payload.title p) ≤ 100)%Z.
Definition content_ok (p : Payload.t) : Prop :=
  (1 ≤ js_length (Payload.content p) ≤ 10000)%Z.
Definition images_ok (p : Payload.t) : Prop := Payload.images p ≠ [].
Definition valid (p : Payload.t) : Prop := title_ok p ∧ content_ok p ∧ images_ok p.

Global Instance Upload_eq_dec : EqDecision Upload.t.
Proof. solve_decision. Defined.
Global Instance ImageFieldset_eq_dec : EqDecision ImageFieldset.t.
Proof. solve_decision. Defined.

Global Instance valid_dec p : Decision (valid p).
Proof. unfold valid, title_ok, content_ok, images_ok. apply _. Defined.

(** Every uploaded file of the payload is still in the upload directory. *)
Definition readable (env : Env) (entries : list ImageFieldset.t) : Prop :=
  Forall (λ e, is_Some (fs env !! Upload.filepath (ImageFieldset.image e))) entries.

(** The form data of a save: the intent is ['submit']. *)
Definition submit (p : Payload.t) : FormData := mkFormData "submit" p.

(** What a run of [save_images] that threw nothing leaves behind: for the
    entries, in order, the new [fileIds], each the key of one new row of
    ["File"] and of one new row of ["Image"]. *)
Record images_saved (env : Env) (noteId : string) (entries : list ImageFieldset.t)
    (fileIds : list string) (db db' : Db) : Prop := {
  saved_length : length fileIds = length entries;
  saved_NoDup : NoDup fileIds;
  saved_users : users db' = users db;
  saved_notes : notes db' = notes db;
  saved_journal :
    journal db' =
      (journal db ++ flat_map (λ f, [FileCreate f; ImageCreate f]) fileIds)%list;
  saved_new : ∀ f, f ∈ fileIds → files db !! f = None ∧ images db !! f = None;
  saved_rows : ∀ i e f,
    entries !! i = Some e → fileIds !! i = Some f →
    (∃ b, fs env !! Upload.filepath (ImageFieldset.image e) = Some b ∧
          files db' !! f = Some (File.mk b)) ∧
    images db' !! f =
      Some (Image.mk (Upload.type (ImageFieldset.image e)) (ImageFieldset.altText e)
              (now env) (now env) (Some noteId));
  saved_other : ∀ f,
    f ∉ fileIds → files db' !! f = files db !! f ∧ images db' !! f = images db !! f;
  saved_files_size : size (files db') = size (files db) + length entries;
  saved_images_size : size (images db') = size (images db) + length entries
}.

(** The end of the action: the images, then the redirect. *)
Definition finish_run (env : Env) (p : Payload.t) (noteId username : string) (db1 : Db) :
    Db * (Exn + Response) :=
  match save_images env noteId (Payload.images p) db1 with
  | (db', inr _) =>
      (db', inr (redirectWithToast ("/users/" +:+ username +:+ "/notes/" +:+ noteId)
                   (if truthy (Payload.id p) then "Note updated" else "Note created")))
  | (db', inl x) => (db', inl x)
  end.

(** The database after the note statement. *)
Definition note_written (db : Db) (id : string) (data : Note.t) (stmt : Statement) : Db :=
  mkDb (users db) (<[id := data]> (notes db)) (files db) (images db)
       (journal db ++ [stmt]).

(** The statements of the loop over the images. *)
Definition is_upload_stmt (s : Statement) : Prop :=
  match s with
  | FileCreate _ | ImageCreate _ => True
  | NoteCreate _ | NoteUpdate _ => False
  end.

(** The note that the note statement of the action writes: the payload's
    own, when its id is not empty and names a note of the caller; a new one,
    when the id is absent or empty. *)
Definition note_target (db : Db) (userId : string) (p : Payload.t) (noteId : string) : Prop :=
  (truthy (Payload.id p) = false ∧ noteId = cuid (notes db)) ∨
  (Payload.id p = Some noteId ∧ noteId ≠ "" ∧
   ∃ n, notes db !! noteId = Some n ∧ Note.ownerId n = userId).

(** ** A database and some payloads to run the definitions on *)

Module Ex.
Definition db : Db :=
  mkDb {[ "u1" := User.mk "kody"; "u2" := User.mk "hannah" ]}
       {[ "n1" := Note.mk "u1" "Groceries" "Milk, eggs";
          "n2" := Note.mk "u2" "Diary" "Dear diary" ]}
       {[ "f0" := File.mk [Byte.x89; Byte.x50] ]}
       {[ "f0" := Image.mk "image/png" (Some "receipt") 1689050000 1689050000 (Some "n1") ]}
       [].

Definition env : Env :=
  mkEnv {[ "/tmp/upload_1" := [Byte.xff; Byte.xd8];
           "/tmp/upload_2" := [Byte.x47; Byte.x49] ]}
        1689050766.

Definition fridge : ImageFieldset.t :=
  ImageFieldset.mk (Upload.mk "/tmp/upload_1" "image/jpeg" "fridge.jpg") (Some "fridge").
Definition cat : ImageFieldset.t :=
  ImageFieldset.mk (Upload.mk "/tmp/upload_2" "image/gif" "cat.gif") None.
(** an upload whose file is gone from the upload directory *)
Definition lost : ImageFieldset.t :=
  ImageFieldset.mk (Upload.mk "/tmp/upload_3" "image/png" "lost.png") None.

(** a new note, as the form sends it without the hidden [id] field *)
Definition create : Payload.t := Payload.mk None "Groceries" "Milk, eggs" [fridge; cat].
(** a new note, as the form sends it with the hidden [id] field empty *)
Definition create_empty_id : Payload.t :=
  Payload.mk (Some "") "Groceries" "Milk, eggs" [fridge].
(** an edit of the caller's own note *)
Definition edit : Payload.t :=
  Payload.mk (Some "n1") "Groceries v2" "Milk, eggs, bread" [fridge; cat].
(** an edit of another user's note *)
Definition edit_foreign : Payload.t := Payload.mk (Some "n2") "Mine now" "ha" [cat].
(** an edit of a note that does not exist *)
Definition edit_unknown : Payload.t := Payload.mk (Some "n9") "Ghost" "boo" [cat].
(** an edit of another user's note with an empty title *)
Definition edit_foreign_invalid : Payload.t := Payload.mk (Some "n2") "" "ha" [cat].
(** an edit whose second upload cannot be read *)
Definition edit_lost : Payload.t :=
  Payload.mk (Some "n1") "Groceries v2" "Milk, eggs, bread" [fridge; lost; cat].
(** the edit of the caller's own note without a new image *)
Definition edit_text_only : Payload.t :=
  Payload.mk (Some "n1") "Groceries v2" "Milk, eggs, bread" [].
(** a new note without an image *)
Definition create_text_only : Payload.t := Payload.mk None "Groceries" "Milk, eggs" [].
(** nothing valid at all *)
Definition empty : Payload.t := Payload.mk None "" "" [].
(** a title of 101 characters and no content *)
Definition long_title : Payload.t :=
  Payload.mk None
    "Lorem ipsum dolor sit amet, consectetur adipiscing elit, sed do eiusmod tempor incididunt ut labore e"
    "" [].
End Ex.

(** ** The images on the edit page *)

(** What [<ImageDeleter image={image} />] puts on the page: the form's
    action, the hidden [imageId], and the [src] and [alt] of the picture. *)
Module ImageDeleter.
Record t := mk { form_action : string; imageId : string; src : string; alt : string }.
End ImageDeleter.

Definition ImageDeleter (image : string * option string) : ImageDeleter.t :=
  ImageDeleter.mk "/resources/delete-image" image.1
    ("/resources/file/" +:+ image.1) (default "" image.2).

(** The list of the note's images in [NoteEditor]: [note?.images.length ?
    ... : null], with one [<li key={image.fileId}>] per image. *)
Definition existing_images (note : option LoaderNote.t) :
    option (list (string * ImageDeleter.t)) :=
  match note with
  | Some n =>
      match LoaderNote.images n with
      | [] => None
      | images => Some ((λ image, (image.1, ImageDeleter image)) <$> images)
      end
  | None => None
  end.

(** Decides a closed proposition by running its decision procedure. *)
Ltac run := apply (bool_decide_unpack _); vm_compute; exact I.

(** ** Ids *)

Lemma cuid_spec {A} (tbl : gmap string A) : cuid tbl ≠ "" ∧ tbl !! cuid tbl = None.
Proof.
  pose proof (fresh_string_of_set_fresh ({[ "" ]} ∪ dom tbl) "c") as Hfresh.
  fold (cuid tbl) in Hfresh. split.
  - intros Heq. apply Hfresh. rewrite Heq. set_solver.
  - apply not_elem_of_dom. set_solver.
Qed.

Lemma cuid_fresh {A} (tbl : gmap string A) : tbl !! cuid tbl = None.
Proof. apply cuid_spec. Qed.

Lemma cuid_nonempty {A} (tbl : gmap string A) : cuid tbl ≠ "".
Proof. apply cuid_spec. Qed.

(** ** The schema *)

Lemma string_min_max_cases lo hi s :
  (lo ≤ hi)%Z →
  let n := js_length s in
  (n < lo ∧ string_min_max lo hi s = [too_small lo])%Z ∨
  (hi < n ∧ string_min_max lo hi s = [too_big hi])%Z ∨
  (lo ≤ n ≤ hi ∧ string_min_max lo hi s = [])%Z.
Proof.
  intros Hle n. unfold string_min_max. fold n.
  repeat case_decide; simpl; first [lia | auto with lia].
Qed.

Lemma parse_intent formData : intent (parse formData) = fd_intent formData.
Proof. reflexivity. Qed.

Lemma parse_payload formData : payload (parse formData) = fd_payload formData.
Proof. reflexivity. Qed.

Lemma title_cases p :
  (js_length (Payload.title p) < 1 ∧
   string_min_max 1 100 (Payload.title p) = [too_small 1])%Z ∨
  (100 < js_length (Payload.title p) ∧
   string_min_max 1 100 (Payload.title p) = [too_big 100])%Z ∨
  (title_ok p ∧ string_min_max 1 100 (Payload.title p) = []).
Proof. apply string_min_max_cases. lia. Qed.

Lemma content_cases p :
  (js_length (Payload.content p) < 1 ∧
   string_min_max 1 10000 (Payload.content p) = [too_small 1])%Z ∨
  (10000 < js_length (Payload.content p) ∧
   string_min_max 1 10000 (Payload.content p) = [too_big 10000])%Z ∨
  (content_ok p ∧ string_min_max 1 10000 (Payload.content p) = []).
Proof. apply string_min_max_cases. lia. Qed.

Lemma images_cases p :
  (Payload.images p = [] ∧ images_array (Payload.images p) = [required]) ∨
  (images_ok p ∧ images_array (Payload.images p) = []).
Proof. unfold images_ok. destruct (Payload.images p); [by left|by right]. Qed.

(** Splits a goal about [parse] into the cases of the three fields. *)
Ltac schema_cases p :=
  unfold parse, ServerNoteEditorSchema, BaseNoteEditorSchema;
  cbn [fd_payload fd_intent value error app];
  destruct (title_cases p) as [[? ->]|[[? ->]|[? ->]]];
  destruct (content_cases p) as [[? ->]|[[? ->]|[? ->]]];
  destruct (images_cases p) as [[? ->]|[? ->]].

Lemma parse_valid i p :
  valid p → parse (mkFormData i p) = mkSubmission i p (Some p) ∅.
Proof.
  intros (Ht & Hc & Hi). unfold title_ok, content_ok, images_ok in *.
  schema_cases p; first [lia | done].
Qed.

Lemma parse_value formData v :
  value (parse formData) = Some v ↔ valid (fd_payload formData) ∧ v = fd_payload formData.
Proof.
  destruct formData as [i p]. cbn [fd_payload]. split.
  - unfold valid. schema_cases p; try discriminate. intros [= <-]. auto.
  - intros [Hv ->]. by rewrite parse_valid.
Qed.

(** ** One image, then all of them *)

Lemma bind_unfold {A B} (m : M A) (k : A → M B) db :
  (m ≫= k) db = match m db with
                | (db', inr a) => k a db'
                | (db', inl e) => (db', inl e)
                end.
Proof. reflexivity. Qed.

(** [save_image] as one case analysis: the file is gone; or the ["File"] row
    is written and the ["Image"] row is refused; or both are written. *)
Lemma save_image_unfold env noteId e db :
  save_image env noteId e db =
  match fs env !! Upload.filepath (ImageFieldset.image e) with
  | None => (db, inl (ENOENT (Upload.filepath (ImageFieldset.image e))))
  | Some b =>
      let f := cuid (files db) in
      let db1 := mkDb (users db) (notes db) (<[f := File.mk b]> (files db)) (images db)
                      (journal db ++ [FileCreate f]) in
      match images db !! f with
      | Some _ => (db1, inl (UniqueViolation "Image_fileId_key"))
      | None =>
          match notes db !! noteId with
          | None => (db1, inl (ForeignKeyViolation "Image_noteId_fkey"))
          | Some _ =>
              (mkDb (users db) (notes db) (<[f := File.mk b]> (files db))
                    (<[f := Image.mk (Upload.type (ImageFieldset.image e))
                                     (ImageFieldset.altText e) (now env) (now env)
                                     (Some noteId)]> (images db))
                    (journal db ++ [FileCreate f; ImageCreate f]),
               inr ())
          end
      end
  end.
Proof.
  unfold save_image. rewrite bind_unfold. unfold readFile.
  destruct (fs env !! _) as [b|]; [|done].
  change ((mret b : M Blob) db) with (db, inr b : Exn + Blob). cbn match.
  rewrite bind_unfold. unfold file_create, image_create. cbn [images files notes users journal].
  destruct (images db !! _); [done|].
  rewrite lookup_insert_eq.
  destruct (notes db !! noteId); [|done].
  by rewrite <- app_assoc.
Qed.

Lemma save_images_cons env noteId e rest db :
  save_images env noteId (e :: rest) db =
  match save_image env noteId e db with
  | (db', inr _) => save_images env noteId rest db'
  | (db', inl x) => (db', inl x)
  end.
Proof. reflexivity. Qed.

Lemma save_images_app env noteId l1 l2 db :
  save_images env noteId (l1 ++ l2) db =
  match save_images env noteId l1 db with
  | (db', inr _) => save_images env noteId l2 db'
  | (db', inl x) => (db', inl x)
  end.
Proof.
  revert db. induction l1 as [|e l1 IH]; intros db; [done|].
  rewrite <- app_comm_cons, !save_images_cons.
  destruct (save_image env noteId e db) as [db1 [x|[]]]; [done|]. apply IH.
Qed.

(** Whatever happens to the images, the users and the notes stay, and no
    row of ["File"] or ["Image"] is lost or changed. *)
Lemma save_image_frame env noteId e db db' r :
  save_image env noteId e db = (db', r) →
  users db' = users db ∧ notes db' = notes db ∧
  files db ⊆ files db' ∧ images db ⊆ images db'.
Proof.
  rewrite save_image_unfold.
  pose proof (cuid_fresh (files db)) as Hfresh.
  destruct (fs env !! _); [|by intros [= <- <-]].
  cbn zeta.
  destruct (images db !! cuid (files db)) eqn:Himg;
    [|destruct (notes db !! noteId)]; intros [= <- <-]; cbn;
    repeat split; try done; by apply insert_subseteq.
Qed.

Lemma save_images_frame env noteId entries db db' r :
  save_images env noteId entries db = (db', r) →
  users db' = users db ∧ notes db' = notes db ∧
  files db ⊆ files db' ∧ images db ⊆ images db'.
Proof.
  revert db. induction entries as [|e rest IH]; intros db.
  - by intros [= <- <-].
  - rewrite save_images_cons.
    destruct (save_image env noteId e db) as [db1 [x|[]]] eqn:He;
      apply save_image_frame in He as (Hu & Hn & Hf & Hi).
    + by intros [= <- <-].
    + intros (Hu' & Hn' & Hf' & Hi')%IH.
      repeat split; [congruence..| |]; by etrans.
Qed.

Lemma images_saved_nil env noteId db : images_saved env noteId [] [] db db.
Proof.
  split;
    [done | constructor | done | done | by rewrite app_nil_r
    | by intros f ?%elem_of_nil | by intros [|i] e f | done
    | simpl; lia | simpl; lia].
Qed.

(** A run of the loop that threw nothing wrote one ["File"] row and then
    one ["Image"] row per entry. *)
Lemma save_images_inv env noteId entries db db' :
  save_images env noteId entries db = (db', inr ()) →
  ∃ fileIds, images_saved env noteId entries fileIds db db'.
Proof.
  revert db. induction entries as [|e rest IH]; intros db.
  { intros [= <-]. exists []. apply images_saved_nil. }
  rewrite save_images_cons, save_image_unfold.
  pose proof (cuid_fresh (files db)) as Hfresh.
  destruct (fs env !! _) as [b|] eqn:Hfs; [|done]. cbn zeta.
  set (f := cuid (files db)) in *.
  destruct (images db !! f) eqn:Himg; [done|].
  destruct (notes db !! noteId) eqn:Hnote; [|done].
  intros [fileIds Hs]%IH. destruct Hs; cbn [users notes files images journal] in *.
  assert (f ∉ fileIds) as Hf.
  { intros [Hin _]%saved_new0. by rewrite lookup_insert_eq in Hin. }
  exists (f :: fileIds). split; cbn [users notes files images journal length].
  - by f_equal.
  - by constructor.
  - done.
  - done.
  - rewrite saved_journal0. cbn [flat_map]. rewrite <- !app_assoc. done.
  - intros f' [->|Hin]%elem_of_cons; [done|].
    apply saved_new0 in Hin as [Hfi Him].
    apply lookup_insert_None in Hfi as [? _]. apply lookup_insert_None in Him as [? _].
    done.
  - intros [|i] e' f' He' Hf'; simplify_eq/=.
    + destruct (saved_other0 _ Hf) as [-> ->]. rewrite !lookup_insert_eq. eauto.
    + eauto.
  - intros f' [Hne Hnin]%not_elem_of_cons.
    destruct (saved_other0 _ Hnin) as [-> ->]. by rewrite !lookup_insert_ne.
  - rewrite saved_files_size0, map_size_insert_None by done. lia.
  - rewrite saved_images_size0, map_size_insert_None by done. lia.
Qed.

(** The loop throws nothing when every file can be read, the note is there
    and every ["Image"] row has its ["File"] row. *)
Lemma save_images_succeeds env noteId entries db :
  readable env entries →
  is_Some (notes db !! noteId) →
  map_Forall (λ f _, is_Some (files db !! f)) (images db) →
  ∃ db', save_images env noteId entries db = (db', inr ()).
Proof.
  revert db. induction entries as [|e rest IH]; intros db Hr Hn Hfk.
  { by exists db. }
  apply Forall_cons in Hr as [[b Hb] Hr].
  rewrite save_images_cons, save_image_unfold, Hb. cbn zeta.
  pose proof (cuid_fresh (files db)) as Hfresh.
  destruct (images db !! cuid (files db)) as [i|] eqn:Himg.
  { apply Hfk in Himg as [? ?]. congruence. }
  destruct Hn as [n Hn]. rewrite Hn.
  apply IH; cbn; [done|by eauto|].
  apply map_Forall_insert_2.
  - by rewrite lookup_insert_eq.
  - intros f' i' Hi'. cbn. apply Hfk in Hi' as [x Hx].
    exists x. rewrite lookup_insert_ne; [done|congruence].
Qed.

(** ** The action, path by path *)

Lemma truthy_Some id : truthy id = true ↔ ∃ i, id = Some i ∧ i ≠ "".
Proof.
  destruct id as [[|a s]|]; simpl; split; try done.
  - intros (i & [= <-] & ?). done.
  - eauto.
  - intros (i & ? & ?). done.
Qed.

Lemma truthy_false id : truthy id = false ↔ id = None ∨ id = Some "".
Proof. destruct id as [[|a s]|]; simpl; split; intros H; try done; auto; by destruct H. Qed.

Lemma action_not_submit env userId formData db :
  fd_intent formData ≠ "submit" →
  action env userId formData db = (db, inr (json idle (parse formData) 200)).
Proof. intros Hi. unfold action. rewrite parse_intent. by rewrite decide_True. Qed.

Lemma action_invalid env userId p db :
  ¬ valid p →
  action env userId (submit p) db = (db, inr (json error_status (parse (submit p)) 400)).
Proof.
  intros Hv. unfold action, submit. rewrite parse_intent. cbn [fd_intent].
  rewrite decide_False by (by intros ?).
  destruct (value _) as [v|] eqn:Hval; [|done].
  apply parse_value in Hval as [? _]. done.
Qed.

Lemma action_not_found env userId p i db :
  valid p → Payload.id p = Some i → i ≠ "" →
  (∀ n, notes db !! i = Some n → Note.ownerId n ≠ userId) →
  action env userId (submit p) db = (db, inr (json error_status (parse (submit p)) 404)).
Proof.
  intros Hv Hid Hne Hnone. unfold action, submit. rewrite parse_intent. cbn [fd_intent].
  rewrite decide_False by (by intros ?).
  rewrite parse_valid by done. cbn [value]. rewrite Hid.
  destruct i as [|a s]; [done|].
  rewrite bind_unfold. unfold note_findFirst.
  destruct (notes db !! String a s) as [n|] eqn:Hn; cbn; [|done].
  rewrite decide_False by eauto. done.
Qed.

Lemma action_update env userId p i n u db :
  valid p → Payload.id p = Some i → i ≠ "" →
  notes db !! i = Some n → Note.ownerId n = userId →
  users db !! userId = Some u →
  action env userId (submit p) db =
  finish_run env p i (User.username u)
    (note_written db i (Note.mk userId (Payload.title p) (Payload.content p)) (NoteUpdate i)).
Proof.
  intros Hv Hid Hne Hn Ho Hu. unfold action, submit. rewrite parse_intent. cbn [fd_intent].
  rewrite decide_False by (by intros ?).
  rewrite parse_valid by done. cbn [value]. rewrite Hid.
  destruct i as [|a s]; [done|].
  rewrite bind_unfold. unfold note_findFirst.
  rewrite Hn. cbn [option_bind mbind]. rewrite decide_True by done.
  rewrite bind_unfold. unfold note_update, select_owner. rewrite Hn. cbn [Note.ownerId users].
  rewrite Hu. rewrite bind_unfold. unfold finish_run, note_written. rewrite Hid. cbn [fst snd].
  by destruct (save_images _ _ _ _) as [db' [x|[]]].
Qed.

Lemma action_create env userId p u db :
  valid p → truthy (Payload.id p) = false →
  users db !! userId = Some u →
  action env userId (submit p) db =
  finish_run env p (cuid (notes db)) (User.username u)
    (note_written db (cuid (notes db))
       (Note.mk userId (Payload.title p) (Payload.content p)) (NoteCreate (cuid (notes db)))).
Proof.
  intros Hv Hid Hu. unfold action, submit. rewrite parse_intent. cbn [fd_intent].
  rewrite decide_False by (by intros ?).
  rewrite parse_valid by done. cbn [value].
  unfold finish_run, note_written.
  destruct (Payload.id p) as [[|a s]|] eqn:Hidp; [|done|];
    rewrite bind_unfold; unfold note_create, select_owner;
    cbn [Note.ownerId users]; rewrite Hu; cbn [users];
    try rewrite Hu; rewrite bind_unfold; cbn [fst snd truthy];
    by destruct (save_images _ _ _ _) as [db' [x|[]]].
Qed.

Lemma action_no_user env userId p db :
  valid p → users db !! userId = None →
  ∃ r, action env userId (submit p) db = (db, r) ∧ ∀ url t, r ≠ inr (redirectWithToast url t).
Proof.
  intros Hv Hu.
  destruct (truthy (Payload.id p)) eqn:Hid.
  - apply truthy_Some in Hid as (i & Hid & Hne).
    destruct (notes db !! i) as [n|] eqn:Hn;
      [destruct (decide (Note.ownerId n = userId)) as [Ho|Ho]|].
    + exists (inl (ForeignKeyViolation "Note_ownerId_fkey")). split; [|done].
      unfold action, submit. rewrite parse_intent. cbn [fd_intent].
      rewrite decide_False by (by intros ?).
      rewrite parse_valid by done. cbn [value]. rewrite Hid.
      destruct i as [|a s]; [done|].
      rewrite bind_unfold. unfold note_findFirst.
      rewrite Hn. cbn [option_bind mbind]. rewrite decide_True by done.
      rewrite bind_unfold. unfold note_update. rewrite Hn. cbn [Note.ownerId].
      by rewrite Hu.
    + eexists. split; [eapply action_not_found; [done..|]; intros n0 Hn0; congruence|done].
    + eexists. split; [eapply action_not_found; [done..|]; intros n0 Hn0; congruence|done].
  - exists (inl (ForeignKeyViolation "Note_ownerId_fkey")). split; [|done].
    unfold action, submit. rewrite parse_intent. cbn [fd_intent].
    rewrite decide_False by (by intros ?).
    rewrite parse_valid by done. cbn [value].
    destruct (Payload.id p) as [[|a s]|] eqn:Hidp; [|done|];
      rewrite bind_unfold; unfold note_create; cbn [Note.ownerId]; by rewrite Hu.
Qed.

(** * The claims *)

(** ** C9: a submission that is not a submit *)

(** C9. For every submission whose intent is not ['submit'] the action
    answers [{ status: 'idle', submission }] with the parsed submission and
    leaves the database as it was: no statement is committed, no row of
    ["Note"], ["File"] or ["Image"] is written. *)
Theorem action_idle_no_mutation env userId formData db :
  fd_intent formData ≠ "submit" →
  action env userId formData db = (db, inr (json idle (parse formData) 200)) ∧
  payload (parse formData) = fd_payload formData ∧
  intent (parse formData) = fd_intent formData.
Proof. intros Hi. split; [by apply action_not_submit|done]. Qed.

Lemma action_idle_no_mutation_witness :
  "validate/title" ≠ "submit" ∧
  action Ex.env "u1" (mkFormData "validate/title" Ex.empty) Ex.db =
    (Ex.db, inr (json idle (parse (mkFormData "validate/title" Ex.empty)) 200)).
Proof.
  assert ("validate/title" ≠ "submit") as H by done.
  split; [exact H|].
  exact (proj1 (action_idle_no_mutation Ex.env "u1"
                  (mkFormData "validate/title" Ex.empty) Ex.db H)).
Defined.

(** ** C1: an id that is not the caller's *)

(** C1, as the code has it. The claim holds of every payload that the
    schema accepts (title and content in bounds, at least one image) and
    whose id is not empty: when no note with that id belongs to the caller
    (there is none, or it is another user's), the action answers 404 with
    the submission and leaves the database as it was. *)
Theorem saveNote_foreign_id_not_found env userId p i db :
  valid p → Payload.id p = Some i → i ≠ "" →
  (∀ n, notes db !! i = Some n → Note.ownerId n ≠ userId) →
  action env userId (submit p) db =
    (db, inr (json error_status (parse (submit p)) 404)).
Proof. apply action_not_found. Qed.

Lemma saveNote_foreign_id_not_found_witness :
  action Ex.env "u1" (submit Ex.edit_foreign) Ex.db =
    (Ex.db, inr (json error_status (parse (submit Ex.edit_foreign)) 404)) ∧
  action Ex.env "u1" (submit Ex.edit_unknown) Ex.db =
    (Ex.db, inr (json error_status (parse (submit Ex.edit_unknown)) 404)).
Proof.
  split.
  - apply (saveNote_foreign_id_not_found Ex.env "u1" Ex.edit_foreign "n2" Ex.db).
    + run.
    + reflexivity.
    + done.
    + intros n Hn. vm_compute in Hn. injection Hn as <-. done.
  - apply (saveNote_foreign_id_not_found Ex.env "u1" Ex.edit_unknown "n9" Ex.db).
    + run.
    + reflexivity.
    + done.
    + intros n Hn. vm_compute in Hn. discriminate.
Defined.

(** Where C1 as the spec words it fails: an empty id names no note, and
    the action creates a note for it; an invalid payload with another user's
    id is answered 400, not 404. *)
Lemma saveNote_foreign_id_counterexample :
  (Payload.id Ex.create_empty_id = Some "" ∧
   notes Ex.db !! "" = None ∧
   (action Ex.env "u1" (submit Ex.create_empty_id) Ex.db).2 =
     inr (redirectWithToast "/users/kody/notes/c" "Note created") ∧
   notes Ex.db !! "c" = None ∧
   notes (action Ex.env "u1" (submit Ex.create_empty_id) Ex.db).1 !! "c" =
     Some (Note.mk "u1" "Groceries" "Milk, eggs")) ∧
  (Payload.id Ex.edit_foreign_invalid = Some "n2" ∧
   Note.ownerId <$> notes Ex.db !! "n2" = Some "u2" ∧
   action Ex.env "u1" (submit Ex.edit_foreign_invalid) Ex.db =
     (Ex.db, inr (json error_status (parse (submit Ex.edit_foreign_invalid)) 400))).
Proof. vm_compute. repeat split. Qed.

(** ** C2: the loader *)

Lemma loader_unfold noteId userId db :
  loader noteId userId db =
  (db, inr match notes db !! noteId with
           | Some n =>
               if decide (Note.ownerId n = userId)
               then json_note (LoaderNote.mk noteId (Note.title n) (Note.content n)
                                 (note_images noteId db))
               else thrown_Response "Not found" 404
           | None => thrown_Response "Not found" 404
           end).
Proof.
  unfold loader. rewrite bind_unfold. unfold note_findFirst.
  destruct (notes db !! noteId) as [n|]; cbn; [|done]. by case_decide.
Qed.

Lemma elem_of_note_images id db f a :
  (f, a) ∈ note_images id db ↔
  ∃ img, images db !! f = Some img ∧ Image.noteId img = Some id ∧ Image.altText img = a.
Proof.
  unfold note_images. rewrite list_elem_of_fmap. split.
  - intros ([f' img] & [= -> ->] & Hin).
    apply elem_of_map_to_list, map_lookup_filter_Some in Hin as [? ?]. eauto.
  - intros (img & Himg & Hn & <-). exists (f, img). split; [done|].
    by apply elem_of_map_to_list, map_lookup_filter_Some.
Qed.

Lemma NoDup_note_images id db : NoDup (note_images id db).*1.
Proof.
  unfold note_images. rewrite <- list_fmap_compose.
  apply (NoDup_fst_map_to_list (filter _ (images db))).
Qed.

(** C2. The loader answers with the note's id, title and content and with
    the [fileId] and [altText] of its images exactly when a note with that
    id belongs to the user; in every other case, an id that names no note
    and an id that names another user's note alike, it throws the one
    response ['Not found'] with status 404.  It never writes. *)
Theorem loader_found_iff_owned noteId userId db :
  (loader noteId userId db).1 = db ∧
  (∀ note, (loader noteId userId db).2 = inr (json_note note) ↔
     ∃ n, notes db !! noteId = Some n ∧ Note.ownerId n = userId ∧
          note = LoaderNote.mk noteId (Note.title n) (Note.content n)
                   (note_images noteId db)) ∧
  ((loader noteId userId db).2 = inr (thrown_Response "Not found" 404) ↔
     ¬ ∃ n, notes db !! noteId = Some n ∧ Note.ownerId n = userId) ∧
  (notes db !! noteId = None →
     loader noteId userId db = (db, inr (thrown_Response "Not found" 404))) ∧
  (∀ n, notes db !! noteId = Some n → Note.ownerId n ≠ userId →
     loader noteId userId db = (db, inr (thrown_Response "Not found" 404))) ∧
  (∀ f a, (f, a) ∈ note_images noteId db ↔
     ∃ img, images db !! f = Some img ∧
            Image.noteId img = Some noteId ∧ Image.altText img = a) ∧
  NoDup (note_images noteId db).*1.
Proof.
  rewrite loader_unfold. cbn [fst snd].
  split_and!; [done| | | | |apply elem_of_note_images|apply NoDup_note_images].
  - intros note. destruct (notes db !! noteId) as [n|]; [case_decide|]; split.
    + intros [= <-]. eauto.
    + by intros (? & [= <-] & _ & ->).
    + done.
    + intros (? & [= <-] & ? & _). done.
    + done.
    + by intros (? & [=] & _).
  - destruct (notes db !! noteId) as [n|]; [case_decide|]; split; try done.
    + intros []. eauto.
    + intros _ (? & [= <-] & ?). done.
    + intros _ (? & [=] & _).
  - by intros ->.
  - intros n -> Hne. by rewrite decide_False.
Qed.

(** ** C6: the bounds of title and content *)

Lemma parse_error_title p i :
  error (parse (mkFormData i p)) !! "title" =
  match string_min_max 1 100 (Payload.title p) with
  | [] => None
  | issues => Some issues
  end.
Proof. schema_cases p; reflexivity. Qed.

Lemma parse_error_content p i :
  error (parse (mkFormData i p)) !! "content" =
  match string_min_max 1 10000 (Payload.content p) with
  | [] => None
  | issues => Some issues
  end.
Proof. schema_cases p; reflexivity. Qed.

Lemma parse_error_images p i :
  error (parse (mkFormData i p)) !! "images" =
  match Payload.images p with
  | [] => Some [required]
  | _ :: _ => None
  end.
Proof.
  unfold parse, ServerNoteEditorSchema, BaseNoteEditorSchema.
  cbn [fd_payload error app].
  destruct (title_cases p) as [[? ->]|[[? ->]|[? ->]]];
  destruct (content_cases p) as [[? ->]|[[? ->]|[? ->]]];
  destruct (Payload.images p); reflexivity.
Qed.


(** C6. A payload whose title is empty or longer than 100, or whose content
    is empty or longer than 10,000, is answered 400 with the submission and
    nothing is written.  The submission has no value, and its [error] has an
    entry for the title exactly when the title is out of bounds and an entry
    for the content exactly when the content is: with a bad title and a bad
    content it has both entries.  A payload without images has the entry
    ["Required"] for [images] beside them. *)
Theorem saveNote_validation_error env userId p db :
  (js_length (Payload.title p) = 0 ∨ 100 < js_length (Payload.title p))%Z ∨
  (js_length (Payload.content p) = 0 ∨ 10000 < js_length (Payload.content p))%Z →
  let sub := parse (submit p) in
  action env userId (submit p) db = (db, inr (json error_status sub 400)) ∧
  value sub = None ∧
  (js_length (Payload.title p) = 0 → error sub !! "title" = Some [too_small 1])%Z ∧
  (100 < js_length (Payload.title p) → error sub !! "title" = Some [too_big 100])%Z ∧
  (js_length (Payload.content p) = 0 → error sub !! "content" = Some [too_small 1])%Z ∧
  (10000 < js_length (Payload.content p) →
     error sub !! "content" = Some [too_big 10000])%Z ∧
  (title_ok p → error sub !! "title" = None) ∧
  (content_ok p → error sub !! "content" = None) ∧
  (Payload.images p = [] → error sub !! "images" = Some [required]) ∧
  (Payload.images p ≠ [] → error sub !! "images" = None).
Proof.
  intros Hbad sub.
  assert (¬ valid p) as Hnv.
  { unfold valid, title_ok, content_ok. lia. }
  split; [by apply action_invalid|].
  split.
  { destruct (value sub) as [v|] eqn:Hv; [|done].
    apply parse_value in Hv as [? _]. done. }
  unfold sub, submit.
  rewrite parse_error_title, parse_error_content, parse_error_images.
  unfold title_ok, content_ok.
  destruct (title_cases p) as [[? ->]|[[? ->]|[Ht ->]]];
  destruct (content_cases p) as [[? ->]|[[? ->]|[Hc ->]]];
  unfold title_ok, content_ok in *;
  (split_and!; try (intros; first [done | lia]);
   destruct (Payload.images p); by intros).
Qed.

Lemma saveNote_validation_error_witness :
  (action Ex.env "u1" (submit Ex.long_title) Ex.db =
     (Ex.db, inr (json error_status (parse (submit Ex.long_title)) 400))) ∧
  error (parse (submit Ex.long_title)) !! "title" = Some [too_big 100] ∧
  error (parse (submit Ex.long_title)) !! "content" = Some [too_small 1].
Proof.
  assert ((js_length (Payload.title Ex.long_title) = 0 ∨
           100 < js_length (Payload.title Ex.long_title))%Z ∨
          (js_length (Payload.content Ex.long_title) = 0 ∨
           10000 < js_length (Payload.content Ex.long_title))%Z) as H.
  { left. right. vm_compute. reflexivity. }
  destruct (saveNote_validation_error Ex.env "u1" Ex.long_title Ex.db H)
    as (Ha & _ & _ & Ht & Hc & _).
  split_and!; [exact Ha | apply Ht; vm_compute; reflexivity | apply Hc; reflexivity].
Defined.

(** ** The note statement, then the images *)

Lemma note_target_truthy db userId p noteId :
  note_target db userId p noteId →
  if truthy (Payload.id p)
  then Payload.id p = Some noteId ∧ noteId ≠ "" ∧
       ∃ n, notes db !! noteId = Some n ∧ Note.ownerId n = userId
  else noteId = cuid (notes db).
Proof.
  intros [[-> ->]|(Hid & Hne & Hn)]; [done|].
  rewrite (proj2 (truthy_Some _)) by eauto. done.
Qed.

(** With a valid payload and a caller who is a user, the action writes the
    note and goes on to the images. *)
Lemma action_target env userId p u noteId db :
  valid p → users db !! userId = Some u → note_target db userId p noteId →
  action env userId (submit p) db =
  finish_run env p noteId (User.username u)
    (note_written db noteId (Note.mk userId (Payload.title p) (Payload.content p))
       (if truthy (Payload.id p) then NoteUpdate noteId else NoteCreate noteId)).
Proof.
  intros Hv Hu Ht. apply note_target_truthy in Ht.
  destruct (truthy (Payload.id p)) eqn:Hid.
  - destruct Ht as (Hi & Hne & n & Hn & Ho). by eapply action_update.
  - subst noteId. by apply action_create.
Qed.

Lemma action_redirect_inv env userId formData db db' url toast :
  action env userId formData db = (db', inr (redirectWithToast url toast)) →
  fd_intent formData = "submit" ∧ valid (fd_payload formData) ∧
  ∃ noteId u,
    users db !! userId = Some u ∧
    note_target db userId (fd_payload formData) noteId ∧
    save_images env noteId (Payload.images (fd_payload formData))
      (note_written db noteId
         (Note.mk userId (Payload.title (fd_payload formData))
            (Payload.content (fd_payload formData)))
         (if truthy (Payload.id (fd_payload formData))
          then NoteUpdate noteId else NoteCreate noteId)) = (db', inr ()) ∧
    url = "/users/" +:+ User.username u +:+ "/notes/" +:+ noteId ∧
    toast = if truthy (Payload.id (fd_payload formData))
            then "Note updated" else "Note created".
Proof.
  destruct formData as [i p]. cbn [fd_intent fd_payload]. intros Hrun.
  destruct (decide (i = "submit")) as [->|Hi]; last first.
  { rewrite action_not_submit in Hrun by done. done. }
  fold (submit p) in Hrun.
  destruct (decide (valid p)) as [Hv|Hv]; last first.
  { rewrite action_invalid in Hrun by done. done. }
  destruct (users db !! userId) as [u|] eqn:Hu; last first.
  { destruct (action_no_user env userId p db Hv Hu) as (r & Hr & Hno).
    rewrite Hr in Hrun. injection Hrun as _ ->. by destruct (Hno url toast). }
  assert (∃ noteId, note_target db userId p noteId ∨
            action env userId (submit p) db =
              (db, inr (json error_status (parse (submit p)) 404))) as [noteId [Ht|H404]].
  { destruct (truthy (Payload.id p)) eqn:Hid.
    - apply truthy_Some in Hid as (j & Hid & Hne). exists j.
      destruct (notes db !! j) as [n|] eqn:Hn;
        [destruct (decide (Note.ownerId n = userId)) as [Ho|Ho]|].
      + left. right. eauto.
      + right. eapply action_not_found; [done..|]. congruence.
      + right. eapply action_not_found; [done..|]. congruence.
    - exists (cuid (notes db)). left. by left. }
  2: { rewrite H404 in Hrun. done. }
  rewrite (action_target _ _ _ _ _ _ Hv Hu Ht) in Hrun. unfold finish_run in Hrun.
  destruct (save_images _ _ _ _) as [db'' [x|[]]] eqn:Hs; [done|].
  injection Hrun as -> <- <-.
  split_and!; [done..|]. exists noteId, u. done.
Qed.

(** ** C3: one [File] row and one [Image] row per entry *)

(** C3. When the action redirects (the save succeeded), then for the [K]
    entries of [images], in their order, there are [K] distinct new file
    ids; each is the key of one new row of ["File"], which holds the bytes
    read from the entry's upload, and of one new row of ["Image"], which has
    the entry's content type, the entry's alt text ([NULL] when the entry has
    none) and the saved note's id.  The tables grow by exactly [K] rows, no
    older row is lost or changed, and the journal shows the statements in
    order: the note, then for each entry its [File] row and then its
    [Image] row. *)
Theorem saveNote_creates_files_and_images env userId formData db db' url toast :
  action env userId formData db = (db', inr (redirectWithToast url toast)) →
  ∃ (noteId username : string) (stmt : Statement) (fileIds : list string),
    url = "/users/" +:+ username +:+ "/notes/" +:+ noteId ∧
    notes db' !! noteId =
      Some (Note.mk userId (Payload.title (fd_payload formData))
              (Payload.content (fd_payload formData))) ∧
    (stmt = NoteCreate noteId ∨ stmt = NoteUpdate noteId) ∧
    journal db' =
      (journal db ++ stmt :: flat_map (λ f, [FileCreate f; ImageCreate f]) fileIds)%list ∧
    length fileIds = length (Payload.images (fd_payload formData)) ∧
    NoDup fileIds ∧
    size (files db') = size (files db) + length (Payload.images (fd_payload formData)) ∧
    size (images db') = size (images db) + length (Payload.images (fd_payload formData)) ∧
    files db ⊆ files db' ∧
    images db ⊆ images db' ∧
    (∀ f, f ∈ fileIds → files db !! f = None ∧ images db !! f = None) ∧
    (∀ i e f,
       Payload.images (fd_payload formData) !! i = Some e → fileIds !! i = Some f →
       (∃ b, fs env !! Upload.filepath (ImageFieldset.image e) = Some b ∧
             files db' !! f = Some (File.mk b)) ∧
       images db' !! f =
         Some (Image.mk (Upload.type (ImageFieldset.image e)) (ImageFieldset.altText e)
                 (now env) (now env) (Some noteId))).
Proof.
  intros (_ & _ & noteId & u & _ & _ & Hs & -> & _)%action_redirect_inv.
  pose proof (save_images_frame _ _ _ _ _ _ Hs) as (_ & _ & Hf & Hi).
  apply save_images_inv in Hs as [fileIds []].
  unfold note_written in *; cbn [users notes files images journal] in *.
  exists noteId, (User.username u),
    (if truthy (Payload.id (fd_payload formData))
     then NoteUpdate noteId else NoteCreate noteId), fileIds.
  split_and!; try done.
  - by rewrite saved_notes0, lookup_insert_eq.
  - destruct (truthy _); auto.
  - by rewrite saved_journal0, <- app_assoc.
Qed.

Lemma saveNote_creates_files_and_images_witness :
  size (files (action Ex.env "u1" (submit Ex.edit) Ex.db).1) = size (files Ex.db) + 2 ∧
  size (images (action Ex.env "u1" (submit Ex.edit) Ex.db).1) = size (images Ex.db) + 2.
Proof.
  assert (action Ex.env "u1" (submit Ex.edit) Ex.db =
            ((action Ex.env "u1" (submit Ex.edit) Ex.db).1,
             inr (redirectWithToast "/users/kody/notes/n1" "Note updated"))) as H.
  { vm_compute. reflexivity. }
  destruct (saveNote_creates_files_and_images _ _ _ _ _ _ _ H)
    as (? & ? & ? & ? & _ & _ & _ & _ & _ & _ & Hf & Hi & _).
  split; [exact Hf|exact Hi].
Defined.

(** ** C8: the redirect *)

(** C8, as the code has it. When the action redirects, the target is
    [/users/<username>/notes/<id>] with the id of the saved note, which has
    the payload's title and content and belongs to the caller, and with the
    caller's username.  The toast is ["Note updated"] when the payload has an
    id that is not empty, and that id is the note's; it is ["Note created"]
    when the payload has no id or an empty one, and the note is new. *)
Theorem saveNote_redirect_target env userId formData db db' url toast :
  action env userId formData db = (db', inr (redirectWithToast url toast)) →
  ∃ noteId u,
    notes db' !! noteId =
      Some (Note.mk userId (Payload.title (fd_payload formData))
              (Payload.content (fd_payload formData))) ∧
    users db' !! userId = Some u ∧
    url = "/users/" +:+ User.username u +:+ "/notes/" +:+ noteId ∧
    ((toast = "Note updated" ∧
      Payload.id (fd_payload formData) = Some noteId ∧ noteId ≠ "" ∧
      is_Some (notes db !! noteId)) ∨
     (toast = "Note created" ∧
      (Payload.id (fd_payload formData) = None ∨
       Payload.id (fd_payload formData) = Some "") ∧
      notes db !! noteId = None)).
Proof.
  intros (_ & _ & noteId & u & Hu & Ht & Hs & -> & ->)%action_redirect_inv.
  apply save_images_frame in Hs as (Hus & Hns & _ & _).
  unfold note_written in *; cbn [users notes] in *.
  exists noteId, u. split_and!; [by rewrite Hns, lookup_insert_eq|congruence|done|].
  apply note_target_truthy in Ht.
  destruct (truthy _) eqn:Hid.
  - left. destruct Ht as (? & ? & n & ? & ?). eauto.
  - right. subst noteId. split_and!; [done|by apply truthy_false|apply cuid_fresh].
Qed.

Lemma saveNote_redirect_target_witness :
  ∃ noteId u,
    users (action Ex.env "u1" (submit Ex.create) Ex.db).1 !! "u1" = Some u ∧
    "/users/kody/notes/c" = "/users/" +:+ User.username u +:+ "/notes/" +:+ noteId.
Proof.
  assert (action Ex.env "u1" (submit Ex.create) Ex.db =
            ((action Ex.env "u1" (submit Ex.create) Ex.db).1,
             inr (redirectWithToast "/users/kody/notes/c" "Note created"))) as H.
  { vm_compute. reflexivity. }
  destruct (saveNote_redirect_target _ _ _ _ _ _ _ H) as (noteId & u & _ & Hu & Hurl & _).
  exists noteId, u. split; [exact Hu|exact Hurl].
Defined.

(** Where C8 as the spec words it fails: a payload that carries an empty
    id; the note is created, and the toast says so. *)
Lemma saveNote_redirect_target_counterexample :
  Payload.id Ex.create_empty_id = Some "" ∧
  valid Ex.create_empty_id ∧
  (action Ex.env "u1" (submit Ex.create_empty_id) Ex.db).2 =
    inr (redirectWithToast "/users/kody/notes/c" "Note created").
Proof. split; [done|]. split; [run|]. vm_compute. reflexivity. Qed.

(** ** The notes are out of reach of the loop *)

Lemma save_image_journal env noteId e db db' r :
  save_image env noteId e db = (db', r) →
  ∃ stmts, journal db' = (journal db ++ stmts)%list ∧ Forall is_upload_stmt stmts.
Proof.
  rewrite save_image_unfold.
  destruct (fs env !! _); [|intros [= <- <-]; exists []; by rewrite app_nil_r].
  cbn zeta.
  destruct (images db !! cuid (files db));
    [|destruct (notes db !! noteId)]; intros [= <- <-]; cbn [journal];
    eexists; (split; [reflexivity|]); repeat constructor.
Qed.

Lemma save_images_journal env noteId entries db db' r :
  save_images env noteId entries db = (db', r) →
  ∃ stmts, journal db' = (journal db ++ stmts)%list ∧ Forall is_upload_stmt stmts.
Proof.
  revert db. induction entries as [|e rest IH]; intros db.
  - intros [= <- <-]. exists []. by rewrite app_nil_r.
  - rewrite save_images_cons.
    destruct (save_image env noteId e db) as [db1 [x|[]]] eqn:He;
      apply save_image_journal in He as (s1 & Hj1 & Hs1).
    + intros [= <- <-]. eauto.
    + intros (s2 & Hj2 & Hs2)%IH. exists (s1 ++ s2)%list.
      split; [by rewrite Hj2, Hj1, app_assoc|by apply Forall_app].
Qed.

Lemma finish_run_frame env p noteId username db1 db' r :
  finish_run env p noteId username db1 = (db', r) →
  users db' = users db1 ∧ notes db' = notes db1 ∧
  files db1 ⊆ files db' ∧ images db1 ⊆ images db' ∧
  ∃ stmts, journal db' = (journal db1 ++ stmts)%list ∧ Forall is_upload_stmt stmts.
Proof.
  unfold finish_run.
  destruct (save_images env noteId (Payload.images p) db1) as [db'' r'] eqn:Hs.
  pose proof (save_images_frame _ _ _ _ _ _ Hs) as (? & ? & ? & ?).
  pose proof (save_images_journal _ _ _ _ _ _ Hs) as ?.
  destruct r' as [x|[]]; intros [= <- <-]; done.
Qed.


(** ** C4: an edit of the caller's own note *)



(** ** C5: a new note *)



(** ** C7: a save that fails among the images *)

Lemma save_images_throw_inv env noteId entries db db' x :
  save_images env noteId entries db = (db', inl x) →
  ∃ pre e post db1,
    entries = (pre ++ e :: post)%list ∧
    save_images env noteId pre db = (db1, inr ()) ∧
    save_image env noteId e db1 = (db', inl x).
Proof.
  revert db. induction entries as [|e rest IH]; intros db; [done|].
  rewrite save_images_cons.
  destruct (save_image env noteId e db) as [db1 [y|[]]] eqn:He.
  - intros [= <- <-]. by exists [], e, rest, db.
  - intros (pre & e' & post & db2 & -> & Hpre & He')%IH.
    exists (e :: pre), e', post, db2. split_and!; [done| |done].
    by rewrite save_images_cons, He.
Qed.

(** C7. Take a well-formed database, a valid payload and a caller who is a
    user, and let [e] be the first entry of [images] whose upload cannot be
    read, after the entries [pre].  Then the action throws at [e], after the
    note statement and the statements of [pre] were committed, and nothing is
    rolled back: the database it leaves behind has the note with the
    payload's title and content, and for every entry of [pre], in order, a
    new row of ["File"] with the entry's bytes and a new row of ["Image"]
    attached to the note.  The two tables have grown by exactly the length of
    [pre], and the journal holds the note statement and the statements of
    [pre], committed one by one. *)
Theorem saveNote_not_atomic env userId p u noteId pre e post db :
  db_ok db → valid p → users db !! userId = Some u →
  note_target db userId p noteId →
  Payload.images p = (pre ++ e :: post)%list →
  readable env pre →
  fs env !! Upload.filepath (ImageFieldset.image e) = None →
  ∃ db' fileIds,
    action env userId (submit p) db =
      (db', inl (ENOENT (Upload.filepath (ImageFieldset.image e)))) ∧
    notes db' !! noteId =
      Some (Note.mk userId (Payload.title p) (Payload.content p)) ∧
    length fileIds = length pre ∧
    NoDup fileIds ∧
    (∀ f, f ∈ fileIds → files db !! f = None ∧ images db !! f = None) ∧
    (∀ i e' f,
       pre !! i = Some e' → fileIds !! i = Some f →
       (∃ b, fs env !! Upload.filepath (ImageFieldset.image e') = Some b ∧
             files db' !! f = Some (File.mk b)) ∧
       images db' !! f =
         Some (Image.mk (Upload.type (ImageFieldset.image e')) (ImageFieldset.altText e')
                 (now env) (now env) (Some noteId))) ∧
    size (files db') = size (files db) + length pre ∧
    size (images db') = size (images db) + length pre ∧
    journal db' =
      (journal db ++
       (if truthy (Payload.id p) then NoteUpdate noteId else NoteCreate noteId) ::
       flat_map (λ f, [FileCreate f; ImageCreate f]) fileIds)%list.
Proof.
  intros (_ & _ & Hfk & _) Hv Hu Ht Himgs Hread He.
  rewrite (action_target _ _ _ _ _ _ Hv Hu Ht). unfold finish_run.
  rewrite Himgs, save_images_app.
  destruct (save_images_succeeds env noteId pre
              (note_written db noteId
                 (Note.mk userId (Payload.title p) (Payload.content p))
                 (if truthy (Payload.id p) then NoteUpdate noteId else NoteCreate noteId)))
    as [db2 Hpre]; [done| |exact Hfk|].
  { cbn [note_written notes]. rewrite lookup_insert_eq. eauto. }
  rewrite Hpre, save_images_cons, save_image_unfold, He.
  apply save_images_inv in Hpre as [fileIds []].
  unfold note_written in *; cbn [users notes files images journal] in *.
  exists db2, fileIds. split_and!; try done.
  - by rewrite saved_notes0, lookup_insert_eq.
  - by rewrite saved_journal0, <- app_assoc.
Qed.

Lemma saveNote_not_atomic_witness :
  ∃ (db' : Db) (fileIds : list string),
    action Ex.env "u1" (submit Ex.edit_lost) Ex.db = (db', inl (ENOENT "/tmp/upload_3")) ∧
    notes db' !! "n1" = Some (Note.mk "u1" "Groceries v2" "Milk, eggs, bread") ∧
    length fileIds = 1 ∧
    size (files db') = size (files Ex.db) + 1 ∧
    size (images db') = size (images Ex.db) + 1.
Proof.
  assert (db_ok Ex.db) as Hok by run.
  assert (valid Ex.edit_lost) as Hv by run.
  assert (users Ex.db !! "u1" = Some (User.mk "kody")) as Hu by (vm_compute; reflexivity).
  assert (note_target Ex.db "u1" Ex.edit_lost "n1") as Ht.
  { right. split_and!; [reflexivity|done|].
    exists (Note.mk "u1" "Groceries" "Milk, eggs"). split; vm_compute; reflexivity. }
  assert (readable Ex.env [Ex.fridge]) as Hr by run.
  assert (fs Ex.env !! Upload.filepath (ImageFieldset.image Ex.lost) = None) as He
    by (vm_compute; reflexivity).
  destruct (saveNote_not_atomic Ex.env "u1" Ex.edit_lost _ "n1" [Ex.fridge] Ex.lost [Ex.cat]
              Ex.db Hok Hv Hu Ht eq_refl Hr He)
    as (db' & fileIds & H1 & H2 & H3 & _ & _ & _ & H4 & H5 & _).
  exists db', fileIds. split_and!; [exact H1|exact H2|exact H3|exact H4|exact H5].
Defined.

(** ** C10: the migration *)

Lemma insert_select_rows (image : list Migration.OldImage) :
  Migration.insert_select Migration.create_table image =
  (λ r, (Migration.fileId r,
         Image.mk (Migration.contentType r) (Migration.altText r)
                  (Migration.createdAt r) (Migration.updatedAt r) None)) <$> image.
Proof. reflexivity. Qed.

Lemma insert_select_fileIds (image : list Migration.OldImage) :
  (Migration.insert_select Migration.create_table image).*1 = Migration.fileId <$> image.
Proof. rewrite insert_select_rows, <- list_fmap_compose. done. Qed.

(** C10. The migration copies every row of the old ["Image"] table, in
    order, with its [fileId], [contentType], [altText], [createdAt] and
    [updatedAt], and with [noteId] [NULL].  On a table whose [fileId]s are
    unique the unique index is created and the script ends with a table that
    has the same [fileId]s, each once, with the old values under it: no
    image of it is attached to a note.  On a table that has a [fileId] twice
    the index, and with it the script, fails. *)
Theorem migration_preserves_images (image : list Migration.OldImage) :
  let copy (r : Migration.OldImage) :=
    Image.mk (Migration.contentType r) (Migration.altText r)
             (Migration.createdAt r) (Migration.updatedAt r) None in
  let rows := Migration.insert_select Migration.create_table image in
  length rows = length image ∧
  (∀ i r, image !! i = Some r → rows !! i = Some (Migration.fileId r, copy r)) ∧
  Forall (λ row : Migration.Row, Image.noteId row.2 = None) rows ∧
  (NoDup (Migration.fileId <$> image) →
   ∃ tbl,
     Migration.migration image = Some tbl ∧
     size tbl = length image ∧
     dom tbl = list_to_set (Migration.fileId <$> image) ∧
     (∀ r, r ∈ image → tbl !! Migration.fileId r = Some (copy r)) ∧
     (∀ f img, tbl !! f = Some img →
        Image.noteId img = None ∧
        ∃ r, r ∈ image ∧ Migration.fileId r = f ∧ img = copy r) ∧
     (∀ db noteId, images db = tbl → note_images noteId db = [])) ∧
  (¬ NoDup (Migration.fileId <$> image) → Migration.migration image = None).
Proof.
  intros copy rows.
  assert (rows = (λ r, (Migration.fileId r, copy r)) <$> image) as Hrows by done.
  assert (rows.*1 = Migration.fileId <$> image) as Hids by apply insert_select_fileIds.
  split_and!.
  - by rewrite Hrows, length_fmap.
  - intros i r Hi. by rewrite Hrows, list_lookup_fmap, Hi.
  - rewrite Hrows. apply Forall_fmap, Forall_true. done.
  - intros Hnd. exists (list_to_map rows).
    assert (NoDup rows.*1) as Hnd' by by rewrite Hids.
    assert (∀ f img, (list_to_map rows : gmap string Image.t) !! f = Some img →
              ∃ r, r ∈ image ∧ Migration.fileId r = f ∧ img = copy r) as Hinv.
    { intros f img Hin%elem_of_list_to_map; [|done].
      rewrite Hrows in Hin. apply list_elem_of_fmap in Hin as (r & [= -> ->] & Hr). eauto. }
    split_and!.
    + unfold Migration.migration, Migration.create_unique_index.
      fold rows. by rewrite decide_True.
    + rewrite map_size_list_to_map by done. by rewrite Hrows, length_fmap.
    + by rewrite dom_list_to_map_L, Hids.
    + intros r Hr. apply elem_of_list_to_map; [done|].
      rewrite Hrows. apply list_elem_of_fmap. eauto.
    + intros f img Hin. destruct (Hinv _ _ Hin) as (r & Hr & <- & ->). eauto.
    + intros db noteId Hdb. apply elem_of_nil_inv. intros [f a] Hin.
      apply elem_of_note_images in Hin as (img & Himg & Hnote & _).
      rewrite Hdb in Himg. destruct (Hinv _ _ Himg) as (r & _ & _ & ->). done.
  - intros Hdup. unfold Migration.migration, Migration.create_unique_index.
    fold rows. rewrite decide_False; [done|]. by rewrite Hids.
Qed.

(** ** Well-formed databases stay well formed *)

Lemma db_ok_file db id file :
  db_ok db →
  db_ok (mkDb (users db) (notes db) (<[id := file]> (files db)) (images db)
              (journal db ++ [FileCreate id])).
Proof.
  intros (Hempty & Hown & Hfile & Hnote). split_and!; cbn; [done|done| |done].
  intros f i Hi. cbn. apply Hfile in Hi. cbn in Hi.
  rewrite lookup_insert. case_decide; eauto.
Qed.

Lemma db_ok_note db id data stmt :
  db_ok db → id ≠ "" → is_Some (users db !! Note.ownerId data) →
  db_ok (note_written db id data stmt).
Proof.
  intros (Hempty & Hown & Hfile & Hnote) Hne Hu. split_and!; cbn.
  - by rewrite lookup_insert_ne.
  - by apply map_Forall_insert_2.
  - done.
  - intros f i Hi. apply Hnote in Hi. cbn in *.
    destruct (Image.noteId i) as [n|]; [|done]. cbn in *.
    rewrite lookup_insert. case_decide; eauto.
Qed.

Lemma save_image_db_ok env noteId e db db' r :
  db_ok db → save_image env noteId e db = (db', r) → db_ok db'.
Proof.
  intros Hok. rewrite save_image_unfold.
  destruct (fs env !! _) as [b|]; [|by intros [= <- <-]]. cbn zeta.
  pose proof (db_ok_file db (cuid (files db)) (File.mk b) Hok) as Hok1.
  destruct (images db !! cuid (files db)); [by intros [= <- <-]|].
  destruct (notes db !! noteId) as [n|] eqn:Hn; [|by intros [= <- <-]].
  intros [= <- <-].
  destruct Hok1 as (Hempty & Hown & Hfile & Hnote). cbn in *.
  split_and!; cbn; [done|done| |].
  - apply map_Forall_insert_2; [by rewrite lookup_insert_eq|done].
  - apply map_Forall_insert_2; [cbn; eauto|done].
Qed.

Lemma save_images_db_ok env noteId entries db db' r :
  db_ok db → save_images env noteId entries db = (db', r) → db_ok db'.
Proof.
  revert db. induction entries as [|e rest IH]; intros db Hok.
  - by intros [= <- <-].
  - rewrite save_images_cons.
    destruct (save_image env noteId e db) as [db1 [x|[]]] eqn:He;
      apply save_image_db_ok in He; [|done| |done].
    + by intros [= <- <-].
    + by apply IH.
Qed.

(** X1. Every database that the action leaves behind is well formed when the
    one it found was, whatever the request and whatever the outcome. *)
Theorem action_preserves_db_ok env userId formData db :
  db_ok db → db_ok (action env userId formData db).1.
Proof.
  intros Hok. destruct formData as [i p].
  destruct (decide (i = "submit")) as [->|Hi]; last first.
  { by rewrite action_not_submit. }
  fold (submit p).
  destruct (decide (valid p)) as [Hv|Hv]; last first.
  { by rewrite action_invalid. }
  destruct (users db !! userId) as [u|] eqn:Hu; last first.
  { destruct (action_no_user env userId p db Hv Hu) as (r & -> & _). done. }
  assert (∃ noteId, note_target db userId p noteId ∨
            action env userId (submit p) db =
              (db, inr (json error_status (parse (submit p)) 404))) as [noteId [Ht|H404]].
  { destruct (truthy (Payload.id p)) eqn:Hid.
    - apply truthy_Some in Hid as (j & Hid & Hne). exists j.
      destruct (notes db !! j) as [n|] eqn:Hn;
        [destruct (decide (Note.ownerId n = userId)) as [Ho|Ho]|].
      + left. right. eauto.
      + right. eapply action_not_found; [done..|]. congruence.
      + right. eapply action_not_found; [done..|]. congruence.
    - exists (cuid (notes db)). left. by left. }
  2: { by rewrite H404. }
  rewrite (action_target _ _ _ _ _ _ Hv Hu Ht). unfold finish_run.
  destruct (save_images _ _ _ _) as [db' r] eqn:Hs.
  apply save_images_db_ok in Hs.
  - by destruct r as [x|[]].
  - apply db_ok_note; [done| |cbn; eauto].
    destruct Ht as [[_ ->]|(_ & Hne & _)]; [apply cuid_nonempty|done].
Qed.

Example empty_db_ok : db_ok (mkDb ∅ ∅ ∅ ∅ []).
Proof. run. Qed.

Example migration_example :
  Migration.migration
    [Migration.mkOld "f0" "image/png" (Some "receipt") 1689050000 1689050000;
     Migration.mkOld "f1" "image/gif" None 1689050001 1689050002] =
  Some {[ "f0" := Image.mk "image/png" (Some "receipt") 1689050000 1689050000 None;
          "f1" := Image.mk "image/gif" None 1689050001 1689050002 None ]}.
Proof. vm_compute. reflexivity. Qed.

Example migration_duplicate :
  Migration.migration
    [Migration.mkOld "f0" "image/png" (Some "receipt") 1689050000 1689050000;
     Migration.mkOld "f0" "image/gif" None 1689050001 1689050002] = None.
Proof. vm_compute. reflexivity. Qed.

(** The example of the spec, as the code answers it.  The save without an
    image is refused: the schema requires [images], and a form without
    images has none.  With an image the note is created, and the edit with
    one more image updates it. *)
Example spec_example :
  let db0 := mkDb {[ "u1" := User.mk "kody" ]} ∅ ∅ ∅ [] in
  let refused := action Ex.env "u1" (submit Ex.create_text_only) db0 in
  let created :=
    action Ex.env "u1" (submit (Payload.mk None "Groceries" "Milk, eggs" [Ex.cat])) db0 in
  let edited :=
    action Ex.env "u1"
      (submit (Payload.mk (Some "c") "Groceries v2" "Milk, eggs, bread" [Ex.fridge]))
      created.1 in
  refused = (db0, inr (json error_status (parse (submit Ex.create_text_only)) 400)) ∧
  error (parse (submit Ex.create_text_only)) !! "images" = Some [required] ∧
  created.2 = inr (redirectWithToast "/users/kody/notes/c" "Note created") ∧
  notes created.1 !! "c" = Some (Note.mk "u1" "Groceries" "Milk, eggs") ∧
  size (images created.1) = 1 ∧
  edited.2 = inr (redirectWithToast "/users/kody/notes/c" "Note updated") ∧
  notes edited.1 !! "c" = Some (Note.mk "u1" "Groceries v2" "Milk, eggs, bread") ∧
  size (notes edited.1) = 1 ∧
  size (files edited.1) = 2 ∧
  Image.altText <$> images edited.1 !! "c0" = Some (Some "fridge").
Proof. vm_compute. repeat split. Qed.

(** * Beyond the claims *)

(** ** Every run of the action, in two cases *)

(** The action answers before any statement and hands back the database it
    found, or it writes the note of a valid payload for a caller who is a
    user and goes on to the images. *)
Lemma action_cases env userId formData db :
  (∃ st code,
     action env userId formData db = (db, inr (json st (parse formData) code)) ∧
     ((st = idle ∧ code = 200 ∧ fd_intent formData ≠ "submit") ∨
      (st = error_status ∧ code = 400 ∧ fd_intent formData = "submit" ∧
       ¬ valid (fd_payload formData)) ∨
      (st = error_status ∧ code = 404 ∧ fd_intent formData = "submit" ∧
       valid (fd_payload formData) ∧
       ∃ i, Payload.id (fd_payload formData) = Some i ∧ i ≠ "" ∧
            ∀ n, notes db !! i = Some n → Note.ownerId n ≠ userId))) ∨
  (action env userId formData db = (db, inl (ForeignKeyViolation "Note_ownerId_fkey")) ∧
   users db !! userId = None) ∨
  (∃ noteId u,
     fd_intent formData = "submit" ∧ valid (fd_payload formData) ∧
     users db !! userId = Some u ∧
     note_target db userId (fd_payload formData) noteId ∧
     action env userId formData db =
       finish_run env (fd_payload formData) noteId (User.username u)
         (note_written db noteId
            (Note.mk userId (Payload.title (fd_payload formData))
               (Payload.content (fd_payload formData)))
            (if truthy (Payload.id (fd_payload formData))
             then NoteUpdate noteId else NoteCreate noteId))).
Proof.
  destruct formData as [i p]. cbn [fd_intent fd_payload].
  destruct (decide (i = "submit")) as [->|Hi]; last first.
  { left. exists idle, 200. split; [by apply action_not_submit|]. left. done. }
  fold (submit p).
  destruct (decide (valid p)) as [Hv|Hv]; last first.
  { left. exists error_status, 400. split; [by apply action_invalid|].
    right. left. done. }
  assert (∃ noteId, note_target db userId p noteId ∨
            (Payload.id p = Some noteId ∧ noteId ≠ "" ∧
             ∀ n, notes db !! noteId = Some n → Note.ownerId n ≠ userId))
    as [noteId [Ht|(Hid & Hne & Hnone)]].
  { destruct (truthy (Payload.id p)) eqn:Hid.
    - apply truthy_Some in Hid as (j & Hid & Hne). exists j.
      destruct (notes db !! j) as [n|] eqn:Hn;
        [destruct (decide (Note.ownerId n = userId)) as [Ho|Ho]|].
      + left. right. eauto.
      + right. split_and!; [done..|]. congruence.
      + right. split_and!; [done..|]. congruence.
    - exists (cuid (notes db)). left. by left. }
  2: { left. exists error_status, 404. split; [by eapply action_not_found|].
       right. right. split_and!; [done..|]. eauto. }
  destruct (users db !! userId) as [u|] eqn:Hu.
  { right. right. exists noteId, u. split_and!; [done..|]. by apply action_target. }
  right. left. split; [|done].
  apply note_target_truthy in Ht.
  unfold action, submit. rewrite parse_intent. cbn [fd_intent].
  rewrite decide_False by (by intros ?).
  rewrite parse_valid by done. cbn [value].
  destruct (Payload.id p) as [[|a s]|] eqn:Hidp; cbn [truthy] in Ht.
  - rewrite bind_unfold. unfold note_create. cbn [Note.ownerId]. by rewrite Hu.
  - destruct Ht as ([= <-] & _ & n & Hn & Ho).
    rewrite bind_unfold. unfold note_findFirst.
    rewrite Hn. cbn [option_bind mbind]. rewrite decide_True by done.
    rewrite bind_unfold. unfold note_update. rewrite Hn. cbn [Note.ownerId].
    by rewrite Hu.
  - rewrite bind_unfold. unfold note_create. cbn [Note.ownerId]. by rewrite Hu.
Qed.

Lemma finish_run_not_json env p noteId username db1 db' st sub code :
  finish_run env p noteId username db1 ≠ (db', inr (json st sub code)).
Proof.
  unfold finish_run. by destruct (save_images _ _ _ _) as [db'' [x|[]]].
Qed.

(** ** What the action leaves alone *)



(** The database after any run, from the two cases. *)
Lemma action_notes env userId formData db :
  notes (action env userId formData db).1 = notes db ∨
  ∃ noteId,
    note_target db userId (fd_payload formData) noteId ∧
    is_Some (users db !! userId) ∧
    notes (action env userId formData db).1 =
      <[noteId := Note.mk userId (Payload.title (fd_payload formData))
                    (Payload.content (fd_payload formData))]> (notes db).
Proof.
  destruct (action_cases env userId formData db)
    as [(st' & code' & -> & _)|[[-> _]|(noteId & u & _ & _ & Hu & Ht & Hact)]];
    [by left..|].
  right. exists noteId. split_and!; [done|eauto|].
  destruct (action env userId formData db) as [db' r]. cbn [fst].
  symmetry in Hact. apply finish_run_frame in Hact as (_ & -> & _). done.
Qed.

Lemma note_target_lookup db userId p noteId :
  note_target db userId p noteId →
  notes db !! noteId = None ∨
  ∃ n, notes db !! noteId = Some n ∧ Note.ownerId n = userId.
Proof.
  intros [[_ ->]|(_ & _ & Hn)]; [left; apply cuid_fresh|by right].
Qed.

(** X3. The action writes at most one row of ["Note"], and that row belongs to
    the caller before (when it was there) and after: a note of another user
    is never changed, no note is ever removed, and a row that is new or
    changed has the caller as [ownerId]. *)
Theorem action_writes_only_own_note env userId formData db :
  let db' := (action env userId formData db).1 in
  (∀ j n, notes db !! j = Some n → Note.ownerId n ≠ userId → notes db' !! j = Some n) ∧
  (∀ j n', notes db' !! j = Some n' →
     notes db !! j = Some n' ∨ Note.ownerId n' = userId) ∧
  (∀ j, is_Some (notes db !! j) → is_Some (notes db' !! j)) ∧
  (∃ noteId, ∀ j, j ≠ noteId → notes db' !! j = notes db !! j).
Proof.
  intros db'. subst db'.
  destruct (action_notes env userId formData db) as [->|(noteId & Ht & _ & ->)].
  { split_and!; [done|by left|done|by exists ""]. }
  apply note_target_lookup in Ht.
  split_and!.
  - intros j n Hj Ho. rewrite lookup_insert_ne; [done|].
    intros <-. destruct Ht as [?|(? & ? & ?)]; congruence.
  - intros j n'. rewrite lookup_insert. case_decide; [|by left].
    intros [= <-]. by right.
  - intros j Hj. rewrite lookup_insert. case_decide; eauto.
  - exists noteId. intros j Hj. by rewrite lookup_insert_ne.
Qed.

(** A row of ["Image"] that the loop adds is attached to the note of the
    loop, and its ["File"] row is there. *)
Lemma save_images_added env noteId entries db db' r :
  save_images env noteId entries db = (db', r) →
  ∀ f img, images db' !! f = Some img →
    images db !! f = Some img ∨
    (images db !! f = None ∧ Image.noteId img = Some noteId ∧ is_Some (files db' !! f)).
Proof.
  revert db. induction entries as [|e rest IH]; intros db.
  { intros [= <- <-]. auto. }
  rewrite save_images_cons.
  destruct (save_image env noteId e db) as [db1 [x|[]]] eqn:He.
  - intros [= <- <-] f img Himg. left.
    rewrite save_image_unfold in He.
    destruct (fs env !! _); [|by simplify_eq]. cbn zeta in He.
    destruct (images db !! cuid (files db)); [by simplify_eq|].
    destruct (notes db !! noteId); by simplify_eq.
  - intros Hrest f img Himg.
    pose proof (save_images_frame _ _ _ _ _ _ Hrest) as (_ & _ & Hf & _).
    destruct (IH _ Hrest _ _ Himg) as [Hold|(Hnone & Hn & Hfile)];
      rewrite save_image_unfold in He;
      (destruct (fs env !! _); [|by simplify_eq]); cbn zeta in He;
      (destruct (images db !! cuid (files db)) eqn:Hfresh; [by simplify_eq|]);
      (destruct (notes db !! noteId); [|by simplify_eq]);
      injection He as <-; cbn [images files] in *.
    + apply lookup_insert_Some in Hold as [[<- <-]|[_ Hold]]; [|by left].
      right. split_and!; [done|done|].
      eapply lookup_weaken_is_Some; [|exact Hf]. by rewrite lookup_insert_eq.
    + apply lookup_insert_None in Hnone as [Hnone _]. by right.
Qed.

(** X4. Apart from ["Note"], the action only ever adds: the users are as they
    were, every row of ["File"] and of ["Image"] that was there is still
    there unchanged, and the journal is only extended.  This holds of every
    request and every outcome. *)
Theorem action_only_adds env userId formData db :
  let db' := (action env userId formData db).1 in
  users db' = users db ∧
  files db ⊆ files db' ∧
  images db ⊆ images db' ∧
  ∃ stmts, journal db' = (journal db ++ stmts)%list.
Proof.
  intros db'. subst db'.
  destruct (action_cases env userId formData db)
    as [(st' & code' & -> & _)|[[-> _]|(noteId & u & _ & _ & _ & _ & Hact)]].
  - split_and!; [done..|]. exists []. by rewrite app_nil_r.
  - split_and!; [done..|]. exists []. by rewrite app_nil_r.
  - destruct (action env userId formData db) as [db' r]. cbn [fst].
    symmetry in Hact.
    apply finish_run_frame in Hact as (Hu & _ & Hf & Hi & stmts & Hj & _).
    unfold note_written in *; cbn [users files images journal] in *.
    split_and!; [done..|]. eexists. by rewrite Hj, <- app_assoc.
Qed.

(** X5. Every row of ["Image"] that the action adds is attached to a note, that
    note belongs to the caller, and the row's ["File"] row is there: the
    action never attaches an image to another user's note and never leaves
    an image without its file. *)
Theorem action_images_attached_to_own_note env userId formData db f img :
  images (action env userId formData db).1 !! f = Some img →
  images db !! f = None →
  ∃ noteId n,
    Image.noteId img = Some noteId ∧
    notes (action env userId formData db).1 !! noteId = Some n ∧
    Note.ownerId n = userId ∧
    is_Some (files (action env userId formData db).1 !! f).
Proof.
  destruct (action_cases env userId formData db)
    as [(st' & code' & -> & _)|[[-> _]|(noteId & u & _ & _ & _ & _ & Hact)]].
  - cbn [fst]. congruence.
  - cbn [fst]. congruence.
  - destruct (action env userId formData db) as [db' r]. cbn [fst].
    symmetry in Hact. unfold finish_run in Hact.
    destruct (save_images _ _ _ _) as [db'' r'] eqn:Hs.
    assert (db'' = db') as -> by (destruct r' as [x|[]]; by simplify_eq).
    pose proof (save_images_frame _ _ _ _ _ _ Hs) as (_ & Hn & _).
    intros Himg Hnone.
    destruct (save_images_added _ _ _ _ _ _ Hs _ _ Himg) as [Hold|(_ & Hnote & Hfile)].
    { cbn [note_written images] in Hold. congruence. }
    exists noteId, (Note.mk userId (Payload.title (fd_payload formData))
                      (Payload.content (fd_payload formData))).
    split_and!; [done| |done|done].
    rewrite Hn. cbn [note_written notes]. by rewrite lookup_insert_eq.
Qed.

Lemma action_images_attached_to_own_note_witness :
  ∃ noteId n,
    Some "n1" = Some noteId ∧
    notes (action Ex.env "u1" (submit Ex.edit) Ex.db).1 !! noteId = Some n ∧
    Note.ownerId n = "u1".
Proof.
  assert (images (action Ex.env "u1" (submit Ex.edit) Ex.db).1 !! "c" =
            Some (Image.mk "image/jpeg" (Some "fridge") 1689050766 1689050766 (Some "n1")))
    as Himg by (vm_compute; reflexivity).
  assert (images Ex.db !! "c" = None) as Hnone by (vm_compute; reflexivity).
  destruct (action_images_attached_to_own_note _ _ _ _ _ _ Himg Hnone)
    as (noteId & n & H1 & H2 & H3 & _).
  exists noteId, n. split_and!; [exact H1|exact H2|exact H3].
Defined.

(** ** Saving again *)

Lemma action_target_frame env userId p u noteId db :
  valid p → users db !! userId = Some u → note_target db userId p noteId →
  notes (action env userId (submit p) db).1 =
    <[noteId := Note.mk userId (Payload.title p) (Payload.content p)]> (notes db) ∧
  users (action env userId (submit p) db).1 = users db.
Proof.
  intros Hv Hu Ht. pose proof (action_target env _ _ _ _ _ Hv Hu Ht) as Hact.
  destruct (action env userId (submit p) db) as [db' r]. cbn [fst].
  symmetry in Hact. apply finish_run_frame in Hact as (-> & -> & _). done.
Qed.

(** X9. Sending the same edit of one's own note a second time changes no note:
    the table of notes after the second save is the table after the first,
    whatever happened to the images in either run. *)
Theorem action_update_twice env userId p i n db :
  db_ok db → Payload.id p = Some i →
  notes db !! i = Some n → Note.ownerId n = userId →
  let db1 := (action env userId (submit p) db).1 in
  notes (action env userId (submit p) db1).1 = notes db1.
Proof.
  intros (Hempty & Hown & _) Hid Hn Ho db1.
  destruct (decide (valid p)) as [Hv|Hv]; last first.
  { subst db1. by rewrite !action_invalid. }
  assert (i ≠ "") as Hne by congruence.
  destruct (Hown _ _ Hn) as [u Hu]. rewrite Ho in Hu.
  assert (note_target db userId p i) as Ht by (right; eauto).
  destruct (action_target_frame env _ _ _ _ _ Hv Hu Ht) as [Hn1 Hu1].
  fold db1 in Hn1, Hu1.
  assert (note_target db1 userId p i) as Ht1.
  { right. split_and!; [done..|]. eexists. rewrite Hn1, lookup_insert_eq. done. }
  rewrite <- Hu1 in Hu.
  destruct (action_target_frame env _ _ _ _ _ Hv Hu Ht1) as [-> _].
  rewrite Hn1. apply insert_insert_eq.
Qed.

Lemma action_update_twice_witness :
  notes (action Ex.env "u1" (submit Ex.edit)
           (action Ex.env "u1" (submit Ex.edit) Ex.db).1).1 =
  notes (action Ex.env "u1" (submit Ex.edit) Ex.db).1.
Proof.
  assert (db_ok Ex.db) as Hok by run.
  assert (notes Ex.db !! "n1" = Some (Note.mk "u1" "Groceries" "Milk, eggs")) as Hn
    by (vm_compute; reflexivity).
  exact (action_update_twice Ex.env "u1" Ex.edit "n1" _ Ex.db Hok eq_refl Hn eq_refl).
Defined.

(** X10. Sending the same new note a second time creates a second note: the two
    generated ids differ, both rows hold the payload, and every other note is
    as it was. *)
Theorem action_create_twice env userId p u db :
  valid p →
  Payload.id p = None ∨ Payload.id p = Some "" →
  users db !! userId = Some u →
  let db1 := (action env userId (submit p) db).1 in
  let db2 := (action env userId (submit p) db1).1 in
  let data := Note.mk userId (Payload.title p) (Payload.content p) in
  cuid (notes db) ≠ cuid (notes db1) ∧
  notes db2 !! cuid (notes db) = Some data ∧
  notes db2 !! cuid (notes db1) = Some data ∧
  size (notes db2) = S (S (size (notes db))) ∧
  (∀ j, j ≠ cuid (notes db) → j ≠ cuid (notes db1) → notes db2 !! j = notes db !! j).
Proof.
  intros Hv Hid%truthy_false Hu db1 db2 data.
  assert (note_target db userId p (cuid (notes db))) as Ht by (by left).
  destruct (action_target_frame env _ _ _ _ _ Hv Hu Ht) as [Hn1 Hu1].
  fold db1 data in Hn1, Hu1.
  assert (note_target db1 userId p (cuid (notes db1))) as Ht1 by (by left).
  rewrite <- Hu1 in Hu.
  destruct (action_target_frame env _ _ _ _ _ Hv Hu Ht1) as [Hn2 _].
  fold db2 data in Hn2.
  pose proof (cuid_fresh (notes db)) as Hf0.
  pose proof (cuid_fresh (notes db1)) as Hf1.
  assert (cuid (notes db) ≠ cuid (notes db1)) as Hne.
  { intros Heq. rewrite <- Heq, Hn1, lookup_insert_eq in Hf1. done. }
  split_and!.
  - done.
  - by rewrite Hn2, lookup_insert_ne, Hn1, lookup_insert_eq.
  - by rewrite Hn2, lookup_insert_eq.
  - rewrite Hn2, map_size_insert_None by done.
    by rewrite Hn1, map_size_insert_None.
  - intros j Hj0 Hj1. by rewrite Hn2, lookup_insert_ne, Hn1, lookup_insert_ne.
Qed.

Lemma action_create_twice_witness :
  size (notes (action Ex.env "u1" (submit Ex.create)
                 (action Ex.env "u1" (submit Ex.create) Ex.db).1).1) = 4.
Proof.
  assert (valid Ex.create) as Hv by run.
  assert (users Ex.db !! "u1" = Some (User.mk "kody")) as Hu by (vm_compute; reflexivity).
  destruct (action_create_twice Ex.env "u1" Ex.create _ Ex.db Hv (or_introl eq_refl) Hu)
    as (_ & _ & _ & Hsize & _).
  exact Hsize.
Defined.

(** ** When the save succeeds, and how it fails *)

(** X7. In a well-formed database a save goes through to the redirect whenever
    the payload is valid, the caller is a user, the id is absent, empty or
    names a note of the caller, and every upload can be read. *)
Theorem action_redirects env userId p u noteId db :
  db_ok db → valid p → users db !! userId = Some u →
  note_target db userId p noteId → readable env (Payload.images p) →
  (action env userId (submit p) db).2 =
    inr (redirectWithToast ("/users/" +:+ User.username u +:+ "/notes/" +:+ noteId)
           (if truthy (Payload.id p) then "Note updated" else "Note created")).
Proof.
  intros (_ & _ & Hfk & _) Hv Hu Ht Hread.
  rewrite (action_target _ _ _ _ _ _ Hv Hu Ht). unfold finish_run.
  destruct (save_images_succeeds env noteId (Payload.images p)
              (note_written db noteId
                 (Note.mk userId (Payload.title p) (Payload.content p))
                 (if truthy (Payload.id p) then NoteUpdate noteId else NoteCreate noteId)))
    as [db' ->]; [done| |exact Hfk|done].
  cbn [note_written notes]. rewrite lookup_insert_eq. eauto.
Qed.

Lemma action_redirects_witness :
  (action Ex.env "u1" (submit Ex.edit) Ex.db).2 =
    inr (redirectWithToast "/users/kody/notes/n1" "Note updated").
Proof.
  assert (db_ok Ex.db) as Hok by run.
  assert (valid Ex.edit) as Hv by run.
  assert (users Ex.db !! "u1" = Some (User.mk "kody")) as Hu by (vm_compute; reflexivity).
  assert (note_target Ex.db "u1" Ex.edit "n1") as Ht.
  { right. split_and!; [reflexivity|done|].
    exists (Note.mk "u1" "Groceries" "Milk, eggs"). split; vm_compute; reflexivity. }
  assert (readable Ex.env (Payload.images Ex.edit)) as Hr by run.
  exact (action_redirects Ex.env "u1" Ex.edit _ "n1" Ex.db Hok Hv Hu Ht Hr).
Defined.

Lemma images_saved_readable env noteId entries fileIds db db' :
  images_saved env noteId entries fileIds db db' → readable env entries.
Proof.
  intros []. apply Forall_lookup. intros i e He.
  destruct (lookup_lt_is_Some_2 fileIds i) as [f Hf].
  { rewrite saved_length0. by eapply lookup_lt_Some. }
  destruct (saved_rows0 _ _ _ He Hf) as [(b & Hb & _) _]. eauto.
Qed.

(** X8. In a well-formed database, with a caller who is a user, the only
    way for the save to throw is an upload that cannot be read.  The error
    names the first such file; every entry before it has
    its ["File"] and its ["Image"] row, and nothing is written for the one
    that failed or for those after it: no file is left without its image. *)
Theorem action_throws_only_ENOENT env userId p u noteId x db db' :
  db_ok db → users db !! userId = Some u →
  note_target db userId p noteId →
  action env userId (submit p) db = (db', inl x) →
  ∃ pre e post,
    Payload.images p = (pre ++ e :: post)%list ∧
    readable env pre ∧
    fs env !! Upload.filepath (ImageFieldset.image e) = None ∧
    x = ENOENT (Upload.filepath (ImageFieldset.image e)) ∧
    size (files db') = size (files db) + length pre ∧
    size (images db') = size (images db) + length pre ∧
    db_ok db'.
Proof.
  intros Hok Hu Ht Hrun.
  assert (valid p) as Hv.
  { destruct (decide (valid p)) as [Hv|Hv]; [done|].
    by rewrite action_invalid in Hrun. }
  rewrite (action_target _ _ _ _ _ _ Hv Hu Ht) in Hrun. unfold finish_run in Hrun.
  destruct (save_images _ _ _ _) as [db'' [y|[]]] eqn:Hs; [|done].
  injection Hrun as -> ->.
  apply save_images_throw_inv in Hs as (pre & e & post & db2 & Himgs & Hpre & He).
  assert (db_ok db2) as Hok2.
  { eapply save_images_db_ok; [|exact Hpre]. apply db_ok_note; [done| |cbn; eauto].
    destruct Ht as [[_ ->]|(_ & Hne & _)]; [apply cuid_nonempty|done]. }
  pose proof (save_images_frame _ _ _ _ _ _ Hpre) as (_ & Hn2 & _).
  apply save_images_inv in Hpre as [fileIds Hsaved].
  pose proof (images_saved_readable _ _ _ _ _ _ Hsaved) as Hread.
  destruct Hsaved. cbn [note_written files images] in *.
  exists pre, e, post.
  rewrite save_image_unfold in He.
  destruct (fs env !! _) as [b|] eqn:Hfs.
  - exfalso. cbn zeta in He.
    destruct Hok2 as (_ & _ & Hfk & _).
    destruct (images db2 !! cuid (files db2)) as [img|] eqn:Himg.
    { apply Hfk in Himg as [? Hfile]. cbn in Hfile.
      by rewrite cuid_fresh in Hfile. }
    unfold note_written in Hn2. cbn [notes] in Hn2.
    rewrite Hn2, lookup_insert_eq in He. done.
  - injection He as <- <-. done.
Qed.

Lemma action_throws_only_ENOENT_witness :
  ∃ pre e post,
    Payload.images Ex.edit_lost = (pre ++ e :: post)%list ∧
    ENOENT "/tmp/upload_3" = ENOENT (Upload.filepath (ImageFieldset.image e)) ∧
    size (files (action Ex.env "u1" (submit Ex.edit_lost) Ex.db).1) =
      size (files Ex.db) + length pre.
Proof.
  assert (db_ok Ex.db) as Hok by run.
  assert (users Ex.db !! "u1" = Some (User.mk "kody")) as Hu by (vm_compute; reflexivity).
  assert (note_target Ex.db "u1" Ex.edit_lost "n1") as Ht.
  { right. split_and!; [reflexivity|done|].
    exists (Note.mk "u1" "Groceries" "Milk, eggs"). split; vm_compute; reflexivity. }
  assert (action Ex.env "u1" (submit Ex.edit_lost) Ex.db =
            ((action Ex.env "u1" (submit Ex.edit_lost) Ex.db).1,
             inl (ENOENT "/tmp/upload_3"))) as Hrun.
  { vm_compute. reflexivity. }
  destruct (action_throws_only_ENOENT _ _ _ _ _ _ _ _ Hok Hu Ht Hrun)
    as (pre & e & post & H1 & _ & _ & H2 & H3 & _).
  exists pre, e, post. split_and!; [exact H1|exact H2|exact H3].
Defined.

(** ** Saving, then loading *)

Lemma note_images_length id db :
  length (note_images id db) =
  size (filter (λ fi : string * Image.t, Image.noteId fi.2 = Some id) (images db)).
Proof. unfold note_images. by rewrite length_fmap, length_map_to_list. Qed.

Lemma save_images_note_images_length env noteId entries db db' :
  save_images env noteId entries db = (db', inr ()) →
  length (note_images noteId db') = length (note_images noteId db) + length entries.
Proof.
  revert db. induction entries as [|e rest IH]; intros db.
  { intros [= <-]. simpl. lia. }
  rewrite save_images_cons, save_image_unfold.
  destruct (fs env !! _) as [b|]; [|done]. cbn zeta.
  destruct (images db !! cuid (files db)) eqn:Hfresh; [done|].
  destruct (notes db !! noteId); [|done].
  intros ->%IH. rewrite !note_images_length. cbn [images length].
  rewrite map_filter_insert_True by done.
  rewrite map_size_insert_None; [lia|].
  by apply map_lookup_filter_None_2; left.
Qed.

(** The images of a note other than the one that the loop writes to are the
    same before and after. *)
Lemma save_images_note_images_other env noteId entries db db' r j :
  save_images env noteId entries db = (db', r) → j ≠ noteId →
  note_images j db' = note_images j db.
Proof.
  intros Hs Hj. unfold note_images. do 2 f_equal.
  pose proof (save_images_frame _ _ _ _ _ _ Hs) as (_ & _ & _ & Hsub).
  apply map_eq. intros f. apply option_eq. intros img.
  rewrite !map_lookup_filter_Some. cbn [snd]. split.
  - intros [Himg Hn]. split; [|done].
    destruct (save_images_added _ _ _ _ _ _ Hs _ _ Himg) as [?|(_ & Hn' & _)];
      [done|congruence].
  - intros [Himg Hn]. split; [|done]. by eapply lookup_weaken.
Qed.

(** X11. After a save that redirected, the loader of the edit page, asked by the
    same user for the id in the redirect, finds the note with the payload's
    title and content.  Its images are the ones it had before and one more
    for every entry of the payload, with that entry's alt text. *)
Theorem save_then_load env userId formData db db' url toast :
  action env userId formData db = (db', inr (redirectWithToast url toast)) →
  ∃ noteId username,
    url = "/users/" +:+ username +:+ "/notes/" +:+ noteId ∧
    loader noteId userId db' =
      (db', inr (json_note
                   (LoaderNote.mk noteId (Payload.title (fd_payload formData))
                      (Payload.content (fd_payload formData))
                      (note_images noteId db')))) ∧
    length (note_images noteId db') =
      length (note_images noteId db) + length (Payload.images (fd_payload formData)) ∧
    (∀ fa, fa ∈ note_images noteId db → fa ∈ note_images noteId db') ∧
    (∀ e, e ∈ Payload.images (fd_payload formData) →
       ∃ f, (f, ImageFieldset.altText e) ∈ note_images noteId db' ∧
            images db !! f = None).
Proof.
  intros (_ & _ & noteId & u & _ & _ & Hs & -> & _)%action_redirect_inv.
  exists noteId, (User.username u). split; [done|].
  pose proof (save_images_frame _ _ _ _ _ _ Hs) as (_ & Hn & _ & Hsub).
  pose proof (save_images_note_images_length _ _ _ _ _ Hs) as Hlen.
  apply save_images_inv in Hs as [fileIds []].
  unfold note_written in *; cbn [notes images files] in *.
  split_and!.
  - rewrite loader_unfold, Hn, lookup_insert_eq. cbn [Note.ownerId Note.title Note.content].
    by rewrite decide_True.
  - done.
  - intros [f a] (img & Himg & Hnote & Ha)%elem_of_note_images.
    apply elem_of_note_images. exists img. split_and!; [|done..].
    by eapply lookup_weaken.
  - intros e (i & He)%list_elem_of_lookup.
    destruct (lookup_lt_is_Some_2 fileIds i) as [f Hf].
    { rewrite saved_length0. by eapply lookup_lt_Some. }
    destruct (saved_rows0 _ _ _ He Hf) as [_ Himg].
    exists f. split.
    + apply elem_of_note_images. eexists. split; [exact Himg|done].
    + apply saved_new0. by eapply list_elem_of_lookup_2.
Qed.

Lemma save_then_load_witness :
  ∃ noteId username,
    "/users/kody/notes/n1" = "/users/" +:+ username +:+ "/notes/" +:+ noteId ∧
    length (note_images noteId (action Ex.env "u1" (submit Ex.edit) Ex.db).1) =
      length (note_images noteId Ex.db) + 2.
Proof.
  assert (action Ex.env "u1" (submit Ex.edit) Ex.db =
            ((action Ex.env "u1" (submit Ex.edit) Ex.db).1,
             inr (redirectWithToast "/users/kody/notes/n1" "Note updated"))) as H.
  { vm_compute. reflexivity. }
  destruct (save_then_load _ _ _ _ _ _ _ H) as (noteId & username & H1 & _ & H2 & _).
  exists noteId, username. split; [exact H1|exact H2].
Defined.

(** ** What another user sees *)

(** X12. A save by one user is invisible to every other user: whatever the
    request and its outcome, the loader answers any other user, for any note
    id, exactly as it did before.  The note that the save wrote is ['Not
    found'] for them before and after, and their own notes keep their title,
    content and images. *)
Theorem action_invisible_to_others env userId formData db other noteId :
  other ≠ userId →
  (loader noteId other (action env userId formData db).1).2 =
  (loader noteId other db).2.
Proof.
  intros Hother. rewrite !loader_unfold. cbn [snd]. f_equal.
  destruct (action_cases env userId formData db)
    as [(st' & code' & -> & _)|[[-> _]|(target & u & _ & _ & _ & Ht & Hact)]];
    [done..|].
  destruct (action env userId formData db) as [db' r]. cbn [fst].
  symmetry in Hact. unfold finish_run in Hact.
  destruct (save_images _ _ _ _) as [db'' r'] eqn:Hs.
  assert (db'' = db') as -> by (destruct r' as [x|[]]; by simplify_eq).
  pose proof (save_images_frame _ _ _ _ _ _ Hs) as (_ & -> & _).
  cbn [note_written notes].
  destruct (decide (noteId = target)) as [->|Hne].
  - rewrite lookup_insert_eq. cbn [Note.ownerId].
    rewrite decide_False by done.
    destruct (note_target_lookup _ _ _ _ Ht) as [->|(n & -> & Ho)]; [done|].
    rewrite decide_False by congruence. done.
  - rewrite lookup_insert_ne by done.
    by rewrite (save_images_note_images_other _ _ _ _ _ _ _ Hs Hne).
Qed.

Lemma action_invisible_to_others_witness :
  (loader "n2" "u2" (action Ex.env "u1" (submit Ex.edit) Ex.db).1).2 =
  (loader "n2" "u2" Ex.db).2.
Proof.
  assert ("u2" ≠ "u1") as H by done.
  exact (action_invisible_to_others Ex.env "u1" (submit Ex.edit) Ex.db "u2" "n2" H).
Defined.

(** ** A value or errors *)


(** X15. A save without an image is always refused: whatever its id, title
    and content, a payload with no entry in [images] is answered 400 with
    the entry ["Required"] for [images], and nothing is written.  The loop's
    [images ?? []] never sees an absent list. *)
Theorem action_requires_images env userId p db :
  Payload.images p = [] →
  action env userId (submit p) db =
    (db, inr (json error_status (parse (submit p)) 400)) ∧
  value (parse (submit p)) = None ∧
  error (parse (submit p)) !! "images" = Some [required].
Proof.
  intros Hnone.
  assert (¬ valid p) as Hnv by (intros (_ & _ & Hi); done).
  split_and!.
  - by apply action_invalid.
  - destruct (value _) as [v|] eqn:Hv; [|done]. by apply parse_value in Hv as [? _].
  - unfold submit. by rewrite parse_error_images, Hnone.
Qed.

Lemma action_requires_images_witness :
  action Ex.env "u1" (submit Ex.edit_text_only) Ex.db =
    (Ex.db, inr (json error_status (parse (submit Ex.edit_text_only)) 400)) ∧
  error (parse (submit Ex.edit_text_only)) !! "images" = Some [required].
Proof.
  destruct (action_requires_images Ex.env "u1" Ex.edit_text_only Ex.db eq_refl)
    as (H1 & _ & H2).
  split; [exact H1|exact H2].
Defined.

(** ** Editing and loading ask the same question *)

(** X13. The action lets a user edit exactly the notes that the loader of the
    edit page shows them: for a valid payload with a non-empty id, the action
    answers 404 if and only if the loader, asked by the same user for that
    id, throws ['Not found']. *)
Theorem edit_refused_iff_not_loadable env userId p i db :
  valid p → Payload.id p = Some i → i ≠ "" →
  (action env userId (submit p) db =
     (db, inr (json error_status (parse (submit p)) 404)) ↔
   loader i userId db = (db, inr (thrown_Response "Not found" 404))).
Proof.
  intros Hv Hid Hne. rewrite loader_unfold. split.
  - intros Hrun.
    assert (∀ n, notes db !! i = Some n → Note.ownerId n ≠ userId) as Hnone.
    { destruct (action_cases env userId (submit p) db)
        as [(st' & code' & Hact & Hcase)|[[Hact _]|(noteId & u & _ & _ & _ & _ & Hact)]];
        rewrite Hact in Hrun.
      - injection Hrun as -> ->.
        destruct Hcase as [(_ & [=] & _)|[(_ & [=] & _)|(_ & _ & _ & _ & j & Hj & _ & Hnone)]].
        cbn [submit fd_payload] in Hj. by simplify_eq.
      - done.
      - by apply finish_run_not_json in Hrun. }
    destruct (notes db !! i) as [n|]; [|done].
    rewrite decide_False; [done|]. by apply Hnone.
  - intros [= Hload]. apply action_not_found with i; [done..|].
    intros n Hn. rewrite Hn in Hload. by case_decide.
Qed.

Lemma edit_refused_iff_not_loadable_witness :
  action Ex.env "u1" (submit Ex.edit_foreign) Ex.db =
    (Ex.db, inr (json error_status (parse (submit Ex.edit_foreign)) 404)) ↔
  loader "n2" "u1" Ex.db = (Ex.db, inr (thrown_Response "Not found" 404)).
Proof.
  assert (valid Ex.edit_foreign) as Hv by run.
  assert ("n2" ≠ "") as Hne by done.
  exact (edit_refused_iff_not_loadable Ex.env "u1" Ex.edit_foreign "n2" Ex.db
           Hv eq_refl Hne).
Defined.

(** ** The database after the migration *)

(** X16. The migrated table fits a well-formed database: when every old row's
    [fileId] names a row of ["File"], the database with the new ["Image"]
    table satisfies both foreign keys ([noteId] is [NULL] throughout), so
    [PRAGMA foreign_key_check] has nothing to report and the action can go
    on from it. *)
Theorem migration_keeps_foreign_keys image tbl us ns fls j :
  Migration.migration image = Some tbl →
  Forall (λ r, is_Some (fls !! Migration.fileId r)) image →
  db_ok (mkDb us ns fls ∅ j) →
  db_ok (mkDb us ns fls tbl j).
Proof.
  unfold Migration.migration, Migration.create_unique_index.
  case_decide as Hnd; [|done]. intros [= <-] Hfiles (Hempty & Hown & _ & _).
  assert (∀ f img,
            (list_to_map (Migration.insert_select Migration.create_table image)
               : gmap string Image.t) !! f = Some img →
            Image.noteId img = None ∧ is_Some (fls !! f)) as Hrows.
  { intros f img Hin%elem_of_list_to_map; [|done].
    rewrite insert_select_rows in Hin.
    apply list_elem_of_fmap in Hin as (r & [= -> ->] & Hr).
    rewrite Forall_forall in Hfiles. split; [done|]. by apply Hfiles. }
  split_and!; cbn; [done|done| |].
  - intros f img Hin. cbn. by apply Hrows in Hin as [_ ?].
  - intros f img Hin. apply Hrows in Hin as [-> _]. done.
Qed.

Lemma migration_keeps_foreign_keys_witness :
  db_ok (mkDb (users Ex.db) (notes Ex.db) {[ "f0" := File.mk [Byte.x89; Byte.x50] ]}
           {[ "f0" := Image.mk "image/png" (Some "receipt") 1689050000 1689050000 None ]}
           []).
Proof.
  assert (Migration.migration
            [Migration.mkOld "f0" "image/png" (Some "receipt") 1689050000 1689050000] =
          Some {[ "f0" := Image.mk "image/png" (Some "receipt")
                            1689050000 1689050000 None ]}) as Hm.
  { vm_compute. reflexivity. }
  assert (Forall (λ r, is_Some (({[ "f0" := File.mk [Byte.x89; Byte.x50] ]}
                                   : gmap string File.t) !! Migration.fileId r))
            [Migration.mkOld "f0" "image/png" (Some "receipt") 1689050000 1689050000])
    as Hf by run.
  assert (db_ok (mkDb (users Ex.db) (notes Ex.db)
                   {[ "f0" := File.mk [Byte.x89; Byte.x50] ]} ∅ [])) as Hok by run.
  exact (migration_keeps_foreign_keys _ _ _ _ _ _ Hm Hf Hok).
Defined.

Lemma action_preserves_db_ok_witness :
  db_ok (action Ex.env "u1" (submit Ex.edit_lost) Ex.db).1.
Proof.
  assert (db_ok Ex.db) as Hok by run.
  exact (action_preserves_db_ok Ex.env "u1" (submit Ex.edit_lost) Ex.db Hok).
Defined.

(** ** The images on the edit page *)

(** X17. On the edit page of a note that the loader found, the list of images is
    there exactly when the note has an image, and it has one entry per
    ["Image"] row of the note.  The React keys of the entries are pairwise
    distinct; each entry's delete form posts the [fileId] of its row, the
    picture is read from [/resources/file/<fileId>], and its [alt] is the
    row's alt text, or empty when that is [NULL]. *)
Theorem edit_page_images noteId userId db note :
  (loader noteId userId db).2 = inr (json_note note) →
  (existing_images (Some note) = None ↔
   ∀ f img, images db !! f = Some img → Image.noteId img ≠ Some noteId) ∧
  ∀ items, existing_images (Some note) = Some items →
    NoDup items.*1 ∧
    (∀ key d, (key, d) ∈ items →
       ImageDeleter.imageId d = key ∧
       ImageDeleter.src d = "/resources/file/" +:+ key ∧
       ∃ img, images db !! key = Some img ∧ Image.noteId img = Some noteId ∧
              ImageDeleter.alt d = default "" (Image.altText img)) ∧
    (∀ f img, images db !! f = Some img → Image.noteId img = Some noteId →
       ∃ d, (f, d) ∈ items).
Proof.
  rewrite loader_unfold. cbn [snd].
  destruct (notes db !! noteId) as [n|]; [case_decide|]; intros [= <-].
  unfold existing_images. cbn [LoaderNote.images].
  pose proof (elem_of_note_images noteId db) as Hel.
  pose proof (NoDup_note_images noteId db) as Hnd.
  destruct (note_images noteId db) as [|image rest] eqn:Himgs.
  - split; [|done]. split; [|done]. intros _ f img Himg Hn.
    eapply elem_of_nil, Hel. eauto.
  - split.
    { split; [done|]. intros Hnone. exfalso.
      destruct image as [f a].
      destruct (proj1 (Hel f a)) as (img & Himg & Hn & _); [by left|].
      by eapply Hnone. }
    remember (image :: rest) as l eqn:Hl. clear Hl.
    intros items [= <-]. split_and!.
    + by rewrite <- list_fmap_compose.
    + intros key d ([f a] & [= -> ->] & Hin)%list_elem_of_fmap.
      split_and!; [done..|].
      apply Hel in Hin as (img & Himg & Hn & <-). eauto.
    + intros f img Himg Hn. exists (ImageDeleter (f, Image.altText img)).
      apply list_elem_of_fmap. exists (f, Image.altText img). split; [done|].
      apply Hel. eauto.
Qed.

Lemma edit_page_images_witness :
  existing_images
    (Some (LoaderNote.mk "n1" "Groceries" "Milk, eggs" [("f0", Some "receipt")])) = None ↔
  ∀ f img, images Ex.db !! f = Some img → Image.noteId img ≠ Some "n1".
Proof.
  assert ((loader "n1" "u1" Ex.db).2 =
            inr (json_note (LoaderNote.mk "n1" "Groceries" "Milk, eggs"
                              [("f0", Some "receipt")]))) as H.
  { vm_compute. reflexivity. }
  exact (proj1 (edit_page_images "n1" "u1" Ex.db _ H)).
Defined.

(** ** The statements of one request *)

Lemma save_images_journal_length env noteId entries db db' r :
  save_images env noteId entries db = (db', r) →
  (length (journal db') ≤ length (journal db) + 2 * length entries)%nat.
Proof.
  revert db. induction entries as [|e rest IH]; intros db.
  { intros [= <- <-]. simpl. lia. }
  rewrite save_images_cons, save_image_unfold.
  destruct (fs env !! _) as [b|]; [|intros [= <- <-]; simpl; lia]. cbn zeta.
  destruct (images db !! cuid (files db)).
  { intros [= <- <-]. cbn [journal length]. rewrite length_app. simpl. lia. }
  destruct (notes db !! noteId).
  - intros Hle%IH. cbn [journal length] in *. rewrite length_app in Hle. simpl in *. lia.
  - intros [= <- <-]. cbn [journal length]. rewrite length_app. simpl. lia.
Qed.

(** X6. One request commits nothing at all, or it commits one statement on
    ["Note"] first and after it only statements on ["File"] and ["Image"], at
    most two for each entry of [images]: the note is never written twice,
    and no upload is stored before the note is. *)
Theorem action_journal env userId formData db :
  let db' := (action env userId formData db).1 in
  journal db' = journal db ∨
  ∃ noteId stmts,
    journal db' =
      (journal db ++
       (if truthy (Payload.id (fd_payload formData))
        then NoteUpdate noteId else NoteCreate noteId) :: stmts)%list ∧
    Forall is_upload_stmt stmts ∧
    (length stmts ≤ 2 * length (Payload.images (fd_payload formData)))%nat.
Proof.
  intros db'. subst db'.
  destruct (action_cases env userId formData db)
    as [(st' & code' & -> & _)|[[-> _]|(noteId & u & _ & _ & _ & _ & Hact)]];
    [by left..|].
  right. exists noteId.
  destruct (action env userId formData db) as [db' r]. cbn [fst].
  symmetry in Hact. unfold finish_run in Hact.
  destruct (save_images _ _ _ _) as [db'' r'] eqn:Hs.
  assert (db'' = db') as -> by (destruct r' as [x|[]]; by simplify_eq).
  pose proof (save_images_journal_length _ _ _ _ _ _ Hs) as Hlen.
  apply save_images_journal in Hs as (stmts & Hj & Hst).
  cbn [note_written journal] in *.
  exists stmts. split_and!; [by rewrite Hj, <- app_assoc|done|].
  rewrite Hj, !length_app in Hlen. simpl in Hlen. lia.
Qed.
